(** * The test-execution and grading orchestrator of the coding-exam interface

    A shallow embedding of [src/ai/flows/execute-code-flow.ts]: the server
    flow [executeCodeFlow], which runs a submission against its test cases on
    the remote sandbox, and the page that uses it: the reducer [examReducer],
    the state [initialState] it starts from, the handlers [handleRunCode] and
    [handleSubmitExam], the timer [ExamTimer], the two effects that depend on
    the clock, and the choice of the screen that the component returns.

    Strings are JavaScript strings: sequences of UTF-16 code units.  Optional
    object fields are [option]s.  Numbers that count seconds are integers;
    marks and scores are binary64 numbers, with the arithmetic that the
    Standard Library specifies for them.  Network calls, the flow wrapper of
    the framework, the write of a document and [uuidv4] are not part of the
    repository; they are taken as an environment [Env] that answers each
    call from the history of the calls made so far, and the calls issued are
    logged in the [World], with what the handlers do to the page. *)

From Stdlib Require Import ZArith Lia DecimalString Floats.
From stdpp Require Import base option list gmap strings.

Local Open Scope N_scope.
Local Open Scope list_scope.

(** ** JavaScript strings *)

(** A string literal of the source: its ASCII characters as code units. *)
Fixpoint js (s : string) : list N :=
  match s with
  | EmptyString => []
  | String c s' => Ascii.N_of_ascii c :: js s'
  end.

(** [a === b] on strings. *)
Fixpoint strictEquals (a b : list N) : bool :=
  match a, b with
  | [], [] => true
  | x :: a', y :: b' => (x =? y) && strictEquals a' b'
  | _, _ => false
  end.

(** WhiteSpace and LineTerminator code points of ECMAScript, all of them in
    the basic plane: TAB, LF, VT, FF, CR, SP, NBSP, U+1680, U+2000..U+200A,
    LS, PS, U+202F, U+205F, U+3000 and the byte order mark. *)
Definition isWhiteSpace (c : N) : bool :=
  existsb (N.eqb c)
          [9; 10; 11; 12; 13; 32; 160; 5760; 8232; 8233; 8239; 8287; 12288; 65279]
  || ((8192 <=? c) && (c <=? 8202)).

Fixpoint trimStart (s : list N) : list N :=
  match s with
  | [] => []
  | c :: s' => if isWhiteSpace c then trimStart s' else s
  end.

Definition trimEnd (s : list N) : list N := rev (trimStart (rev s)).

(** [String.prototype.trim]. *)
Definition trim (s : list N) : list N := trimEnd (trimStart s).

(** A value used as a condition: [undefined] and the empty string are falsy. *)
Definition truthy (v : option (list N)) : bool :=
  match v with
  | Some (_ :: _) => true
  | _ => false
  end.

(** [v || d] where [v] is a string or [undefined] and [d] a string. *)
Definition orElse (v : option (list N)) (d : list N) : list N :=
  match v with
  | Some (c :: s) => c :: s
  | _ => d
  end.

(** [v || undefined]. *)
Definition orUndefined (v : option (list N)) : option (list N) :=
  match v with
  | Some (c :: s) => Some (c :: s)
  | _ => None
  end.

(** ** JavaScript numbers *)

(** A number is an IEEE 754 binary64 value, all NaNs being one.  Every
    operation gives the value nearest to the exact result, ties going to the
    even mantissa. *)
Definition number : Type := spec_float.

Module Number.
(** The literal [0]. *)
Definition zero : number := S754_zero false.

(** The number of a count: the value nearest to it, the count itself up to
    2^53. *)
Definition ofNat (n : nat) : number := binary_normalize prec emax (Z.of_nat n) 0 false.

Definition add : number -> number -> number := SFadd prec emax.
Definition mul : number -> number -> number := SFmul prec emax.
Definition div : number -> number -> number := SFdiv prec emax.
End Number.

(** ** The data model ([@/types], used through its fields) *)

Module TestCase.
Record t := mk { id : list N; input : list N; expectedOutput : list N }.
End TestCase.

Module TestResult.
(** [id] is only present on the results built by [handleSubmitExam] when a
    whole question fails: they spread the test case and give it a new id. *)
Record t := mk {
  id : option (list N);
  input : list N;
  expectedOutput : list N;
  actualOutput : list N;
  isCorrect : bool;
  error : option (list N)
}.
End TestResult.

Module ExecuteCodeInput.
Record t := mk {
  language : list N;
  sourceCode : list N;
  testCases : list TestCase.t
}.
End ExecuteCodeInput.

Module ExecuteCodeOutput.
Record t := mk {
  results : list TestResult.t;
  totalPassed : nat;
  totalCases : nat
}.
End ExecuteCodeOutput.

(** ** The remote execution service *)

(** The JSON body of the POST request. *)
Module Request.
Record t := mk {
  language : list N;
  version : list N;
  files : list (list N);
  stdin : list N
}.
End Request.

(** A thrown value, read only through [error.message]. *)
Record JsError := mkError { message : option (list N) }.

(** The TypeError of reading the property [prop] of [undefined]. *)
Definition typeErrorReading (prop : string) : JsError :=
  mkError (Some (js "Cannot read properties of undefined (reading '"
                   ++ js prop ++ js "')")).

(** [result.run] of a parsed response body: [output] and [stderr] are strings
    when present. *)
Record Run := mkRun { output : option (list N); stderr : option (list N) }.

(** What [await response.json()] does: it throws, or gives an object whose
    [run] property may be missing. *)
Inductive Json :=
| JsonThrows (e : JsError)
| JsonResult (run : option Run).

Record Response := mkResponse { ok : bool; statusText : list N; json : Json }.

(** What [await fetch(...)] does. *)
Inductive FetchOutcome :=
| FetchRejects (e : JsError)
| FetchResolves (r : Response).

(** What the wrapper installed by [ai.defineFlow] and the server-action call
    around it do with one invocation of [executeCode]: run the body and hand
    its result over, or throw, before the body has run or after it. *)
Inductive FlowFate :=
| FlowCompletes
| FlowThrowsBefore (e : JsError)
| FlowThrowsAfter (e : JsError).

(** ** The exam page: state and reducer *)

Module StudentAnswer.
(** Every field but [questionId] may be missing from the object. *)
Record t := mk {
  questionId : list N;
  questionText : option (list N);
  status : option (list N);
  sourceCode : option (list N);
  actualOutput : option (list N);
  isCorrect : option bool;
  testResults : option (list TestResult.t);
  totalPassed : option nat;
  totalCases : option nat;
  marks : option number
}.

(** [{ questionId }]. *)
Definition only (questionId : list N) : t :=
  mk questionId None None None None None None None None None.
End StudentAnswer.

Module Question.
Record t := mk {
  id : list N;
  text : list N;
  testCases : option (list TestCase.t)
}.
End Question.

Module Exam.
(** [duration] is a whole number of minutes. *)
Record t := mk {
  title : list N;
  duration : Z;
  language : option (list N);
  questions : option (list Question.t)
}.
End Exam.

Module State.
Record t := mk {
  timeLeft : Z;
  examStarted : bool;
  examFinished : bool;
  answers : gmap (list N) StudentAnswer.t;
  language : list N
}.
End State.

Inductive Action :=
| INITIALIZE (payload : State.t)
| START_EXAM
| UPDATE_CODE (questionId sourceCode : list N)
| UPDATE_LANGUAGE (payload : list N)
| SET_RUN_RESULT (questionId actualOutput : list N) (isCorrect : bool)
| TICK_TIMER
| FINISH_EXAM.

Definition answered : list N := js "answered".
Definition notAnswered : list N := js "not-answered".

(** [newAnswers.get(questionId) || { questionId }]. *)
Definition answerOrNew (answers : gmap (list N) StudentAnswer.t) (questionId : list N)
  : StudentAnswer.t :=
  match answers !! questionId with
  | Some answer => answer
  | None => StudentAnswer.only questionId
  end.

Definition examReducer (state : State.t) (action : Action) : State.t :=
  match action with
  | INITIALIZE payload => payload
  | START_EXAM =>
      State.mk (State.timeLeft state) true (State.examFinished state)
               (State.answers state) (State.language state)
  | UPDATE_CODE questionId sourceCode =>
      let answer := answerOrNew (State.answers state) questionId in
      let newAnswers :=
        <[questionId :=
            StudentAnswer.mk (StudentAnswer.questionId answer)
              (StudentAnswer.questionText answer)
              (StudentAnswer.status answer)
              (Some sourceCode)
              (StudentAnswer.actualOutput answer)
              (StudentAnswer.isCorrect answer)
              (StudentAnswer.testResults answer)
              (StudentAnswer.totalPassed answer)
              (StudentAnswer.totalCases answer)
              (StudentAnswer.marks answer)]> (State.answers state) in
      State.mk (State.timeLeft state) (State.examStarted state)
               (State.examFinished state) newAnswers (State.language state)
  | UPDATE_LANGUAGE payload =>
      State.mk (State.timeLeft state) (State.examStarted state)
               (State.examFinished state) (State.answers state) payload
  | SET_RUN_RESULT questionId actualOutput isCorrect =>
      let answer := answerOrNew (State.answers state) questionId in
      let updatedAnswer :=
        StudentAnswer.mk (StudentAnswer.questionId answer)
          (StudentAnswer.questionText answer)
          (if isCorrect then Some answered else StudentAnswer.status answer)
          (StudentAnswer.sourceCode answer)
          (Some actualOutput)
          (Some isCorrect)
          (StudentAnswer.testResults answer)
          (StudentAnswer.totalPassed answer)
          (StudentAnswer.totalCases answer)
          (StudentAnswer.marks answer) in
      State.mk (State.timeLeft state) (State.examStarted state)
               (State.examFinished state)
               (<[questionId := updatedAnswer]> (State.answers state))
               (State.language state)
  | TICK_TIMER =>
      if (State.timeLeft state <=? 1)%Z then
        State.mk 0%Z (State.examStarted state) true
                 (State.answers state) (State.language state)
      else
        State.mk (State.timeLeft state - 1)%Z (State.examStarted state)
                 (State.examFinished state) (State.answers state)
                 (State.language state)
  | FINISH_EXAM =>
      State.mk 0%Z (State.examStarted state) true
               (State.answers state) (State.language state)
  end.

(** ** What the handlers do to the page *)

Record Toast := mkToast {
  variant : option (list N);
  title : list N;
  description : option (list N);
  className : option (list N)
}.

(** The payload handed to [setDocumentNonBlocking]; [timeFinished] is the
    server's timestamp marker and carries no data. *)
Module Submission.
Record t := mk {
  studentId : list N;
  examId : list N;
  examTitle : list N;
  answers : list StudentAnswer.t;
  score : number;
  language : list N;
  autoSubmitted : option bool;
  exitCount : option Z;
  status : list N
}.
End Submission.

Inductive UiEvent :=
| SetIsExecutingCode (b : bool)
| SetIsSubmitting (b : bool)
| ShowToast (t : Toast)
| Dispatch (a : Action)
| SetDocument (ref : list N) (payload : Submission.t)
| RouterPush (path : list N)
| ConsoleError (label : list N) (e : JsError).

(** [totalCases > 0 ? (totalPassed / totalCases) * 100 : 0]: a division and
    then a multiplication, each of them rounded. *)
Definition marksForQuestion (result : ExecuteCodeOutput.t) : number :=
  if (0 <? ExecuteCodeOutput.totalCases result)%nat then
    Number.mul
      (Number.div (Number.ofNat (ExecuteCodeOutput.totalPassed result))
                  (Number.ofNat (ExecuteCodeOutput.totalCases result)))
      (Number.ofNat 100)
  else Number.zero.

(** ** The world of a handler *)

(** The documents handed to [setDocumentNonBlocking] so far. *)
Definition documentsOf (events : list UiEvent) : list Submission.t :=
  omap (fun e => match e with SetDocument _ payload => Some payload | _ => None end)
       events.

(** What is outside the repository.  [documentStore] is what a call of
    [setDocumentNonBlocking] does, given the documents handed over before:
    it returns ([None]) or throws. *)
Record Env := mkEnv {
  network : list Request.t -> Request.t -> FetchOutcome;
  flowWrapper : list ExecuteCodeInput.t -> ExecuteCodeInput.t -> FlowFate;
  uuidSource : nat -> list N;
  documentStore : list Submission.t -> list N -> Submission.t -> option JsError
}.

(** The calls made so far, and what has been done to the page. *)
Record World := mkWorld {
  fetched : list Request.t;
  invoked : list ExecuteCodeInput.t;
  uuids : nat;
  ui : list UiEvent
}.

Definition initialWorld : World := mkWorld [] [] 0 [].

(** ** Computations that may throw *)

Inductive Completion (A : Type) :=
| Normal (a : A)
| Throw (e : JsError).
Arguments Normal {A} a.
Arguments Throw {A} e.

Definition M (A : Type) : Type := World -> Completion A * World.

Definition ret {A} (a : A) : M A := fun w => (Normal a, w).

Definition throw {A} (e : JsError) : M A := fun w => (Throw e, w).

Definition bind {A B} (m : M A) (k : A -> M B) : M B :=
  fun w =>
    match m w with
    | (Normal a, w') => k a w'
    | (Throw e, w') => (Throw e, w')
    end.

(** [try { m } catch (error) { h error }]. *)
Definition tryCatch {A} (m : M A) (h : JsError -> M A) : M A :=
  fun w =>
    match m w with
    | (Normal a, w') => (Normal a, w')
    | (Throw e, w') => h e w'
    end.

Notation "x <- m ;; k" := (bind m (fun x => k))
  (at level 100, m at next level, right associativity).

(** [for (const x of xs) { acc = body acc x }]. *)
Fixpoint forOf {A S} (xs : list A) (body : S -> A -> M S) (acc : S) : M S :=
  match xs with
  | [] => ret acc
  | x :: xs' => acc' <- body acc x ;; forOf xs' body acc'
  end.

(** An effect on the page: a state setter, [toast], [dispatch], ... *)
Definition emit (e : UiEvent) : M unit :=
  fun w => (Normal tt, mkWorld (fetched w) (invoked w) (uuids w) (ui w ++ [e])).

Fixpoint mapM {A B} (f : A -> M B) (xs : list A) : M (list B) :=
  match xs with
  | [] => ret []
  | x :: xs' => y <- f x ;; ys <- mapM f xs' ;; ret (y :: ys)
  end.

Definition PISTON_version : list N := js "*".

Section Program.

Variable env : Env.

Definition fetch (req : Request.t) : M Response :=
  fun w =>
    let w' := mkWorld (fetched w ++ [req]) (invoked w) (uuids w) (ui w) in
    match network env (fetched w) req with
    | FetchRejects e => (Throw e, w')
    | FetchResolves r => (Normal r, w')
    end.

Definition responseJson (r : Response) : M (option Run) :=
  match json r with
  | JsonThrows e => throw e
  | JsonResult run => ret run
  end.

(** [result.run.output] and [result.run.stderr] throw a TypeError when
    [result.run] is missing. *)
Definition resultRun (run : option Run) : M Run :=
  match run with
  | Some r => ret r
  | None => throw (typeErrorReading "output")
  end.

Definition uuidv4 : M (list N) :=
  fun w => (Normal (uuidSource env (uuids w)),
            mkWorld (fetched w) (invoked w) (S (uuids w)) (ui w)).

(** *** [executeCodeFlow] *)

Definition requestFor (input : ExecuteCodeInput.t) (testCase : TestCase.t) : Request.t :=
  Request.mk (ExecuteCodeInput.language input) PISTON_version
             [ExecuteCodeInput.sourceCode input] (TestCase.input testCase).

Definition apiError (r : Response) : list N := js "API Error: " ++ statusText r.

(** One iteration of the loop over [input.testCases].  The locals [results]
    and [totalPassed] are threaded through; nothing in the [try] block can
    throw after it has changed one of them, so the handler starts from the
    values the iteration started with. *)
Definition forTestCase (input : ExecuteCodeInput.t)
           (acc : list TestResult.t * nat) (testCase : TestCase.t)
  : M (list TestResult.t * nat) :=
  let '(results, totalPassed) := acc in
  tryCatch
    (response <- fetch (requestFor input testCase) ;;
     if negb (ok response) then
       ret (results ++ [TestResult.mk None
                          (TestCase.input testCase)
                          (TestCase.expectedOutput testCase)
                          (apiError response)
                          false
                          (Some (apiError response))],
            totalPassed)
     else
       result <- responseJson response ;;
       run <- resultRun result ;;
       let actualOutput := trim (orElse (output run) []) in
       let isCorrect := strictEquals actualOutput (trim (TestCase.expectedOutput testCase)) in
       let totalPassed := if isCorrect then S totalPassed else totalPassed in
       ret (results ++ [TestResult.mk None
                          (TestCase.input testCase)
                          (TestCase.expectedOutput testCase)
                          actualOutput
                          isCorrect
                          (orUndefined (stderr run))],
            totalPassed))
    (fun error =>
       ret (results ++ [TestResult.mk None
                          (TestCase.input testCase)
                          (TestCase.expectedOutput testCase)
                          (js "Execution Failed")
                          false
                          (Some (orElse (message error) (js "An unknown error occurred.")))],
            totalPassed)).

Definition executeCodeFlow (input : ExecuteCodeInput.t) : M ExecuteCodeOutput.t :=
  acc <- forOf (ExecuteCodeInput.testCases input) (forTestCase input) ([], 0%nat) ;;
  ret (ExecuteCodeOutput.mk (fst acc) (snd acc)
                            (length (ExecuteCodeInput.testCases input))).

(** [executeCode], as its callers see it: the body of the flow inside the
    wrapper of the framework. *)
Definition executeCode (input : ExecuteCodeInput.t) : M ExecuteCodeOutput.t :=
  fun w =>
    let w' := mkWorld (fetched w) (invoked w ++ [input]) (uuids w) (ui w) in
    match flowWrapper env (invoked w) input with
    | FlowCompletes => executeCodeFlow input w'
    | FlowThrowsBefore e => (Throw e, w')
    | FlowThrowsAfter e => (Throw e, snd (executeCodeFlow input w'))
    end.

End Program.

(** ** The exam page: handlers *)

Section Page.

Variable env : Env.

(** *** [handleRunCode] *)

(** [currentQuestion.testCases?.slice(0, 1) || [{ id: uuidv4(), ... }]]:
    an array, even an empty one, is truthy. *)
Definition sampleTestCases (currentQuestion : Question.t) : M (list TestCase.t) :=
  match Question.testCases currentQuestion with
  | Some testCases => ret (take 1 testCases)
  | None => id <- uuidv4 env ;; ret [TestCase.mk id [] []]
  end.

Definition handleRunCode (state : option State.t) (examData : option Exam.t)
           (currentQuestionIndex : nat) : M unit :=
  match state, examData with
  | Some state, Some examData =>
      match Exam.questions examData with
      | None | Some [] => ret tt
      | Some questions =>
          match questions !! currentQuestionIndex with
          | None => ret tt
          | Some currentQuestion =>
              match State.answers state
                      !! orElse (Some (Question.id currentQuestion)) [] with
              | None => ret tt
              | Some currentAnswer =>
                  _ <- emit (SetIsExecutingCode true) ;;
                  _ <- tryCatch
                    (testCases <- sampleTestCases currentQuestion ;;
                     let input :=
                       ExecuteCodeInput.mk (State.language state)
                         (orElse (StudentAnswer.sourceCode currentAnswer) [])
                         testCases in
                     result <- executeCode env input ;;
                     match ExecuteCodeOutput.results result !! 0%nat with
                     | None => throw (typeErrorReading "error")
                     | Some singleResult =>
                         match TestResult.error singleResult with
                         | Some (c :: s) =>
                             _ <- emit (ShowToast
                                    (mkToast (Some (js "destructive"))
                                       (js "Execution Error") (Some (c :: s)) None)) ;;
                             emit (Dispatch
                                    (SET_RUN_RESULT (Question.id currentQuestion)
                                       (c :: s) false))
                         | _ =>
                             _ <- emit (Dispatch
                                    (SET_RUN_RESULT (Question.id currentQuestion)
                                       (TestResult.actualOutput singleResult)
                                       (TestResult.isCorrect singleResult))) ;;
                             if TestResult.isCorrect singleResult then
                               emit (ShowToast
                                    (mkToast None (js "Test Case Passed!")
                                       (Some (js "This question is now marked as answered."))
                                       (Some (js "bg-green-100 text-green-800"))))
                             else ret tt
                         end
                     end)
                    (fun e =>
                       emit (ShowToast
                               (mkToast (Some (js "destructive")) (js "Error")
                                  (message e) None))) ;;
                  emit (SetIsExecutingCode false)
              end
          end
      end
  | _, _ => ret tt
  end.

(** *** [handleSubmitExam] *)

Definition unattempted (question : Question.t) : StudentAnswer.t :=
  StudentAnswer.mk (Question.id question) (Some (Question.text question))
    (Some notAnswered) None None None (Some []) None None (Some Number.zero).

(** A test case of a question whose execution failed as a whole:
    [{...tc, id: uuidv4(), actualOutput: ..., isCorrect: false, error: ...}]. *)
Definition failedOnSubmit (tc : TestCase.t) : M TestResult.t :=
  id <- uuidv4 env ;;
  ret (TestResult.mk (Some id) (TestCase.input tc) (TestCase.expectedOutput tc)
         (js "Execution Error on Submit") false
         (Some (js "Submission execution failed"))).

(** One iteration of the loop over the questions; [finalAnswers] and
    [totalMarks] are threaded through. *)
Definition forQuestion (state : State.t) (acc : list StudentAnswer.t * number)
           (question : Question.t) : M (list StudentAnswer.t * number) :=
  let '(finalAnswers, totalMarks) := acc in
  match State.answers state !! Question.id question with
  | Some answer =>
      match StudentAnswer.sourceCode answer with
      | Some (c :: s) =>
          let input :=
            ExecuteCodeInput.mk (State.language state) (c :: s)
              (default [] (Question.testCases question)) in
          tryCatch
            (result <- executeCode env input ;;
             let marks := marksForQuestion result in
             let totalMarks := Number.add totalMarks marks in
             ret (finalAnswers ++
                    [StudentAnswer.mk (Question.id question)
                       (Some (Question.text question))
                       (StudentAnswer.status answer)
                       (StudentAnswer.sourceCode answer)
                       (StudentAnswer.actualOutput answer)
                       (StudentAnswer.isCorrect answer)
                       (Some (ExecuteCodeOutput.results result))
                       (Some (ExecuteCodeOutput.totalPassed result))
                       (Some (ExecuteCodeOutput.totalCases result))
                       (Some marks)],
                  totalMarks))
            (fun e =>
               testResults <- mapM failedOnSubmit
                                (default [] (Question.testCases question)) ;;
               ret (finalAnswers ++
                      [StudentAnswer.mk (Question.id question)
                         (Some (Question.text question))
                         (Some notAnswered)
                         (StudentAnswer.sourceCode answer)
                         (StudentAnswer.actualOutput answer)
                         (StudentAnswer.isCorrect answer)
                         (Some testResults)
                         (StudentAnswer.totalPassed answer)
                         (StudentAnswer.totalCases answer)
                         (Some Number.zero)],
                    totalMarks))
      | _ => ret (finalAnswers ++ [unattempted question], totalMarks)
      end
  | None => ret (finalAnswers ++ [unattempted question], totalMarks)
  end.

(** [examData.questions.length > 0 ? totalMarks / examData.questions.length : 0];
    reading [length] of a missing [questions] throws. *)
Definition overallScore (examData : Exam.t) (totalMarks : number) : M number :=
  match Exam.questions examData with
  | None => throw (typeErrorReading "length")
  | Some questions =>
      ret (if (0 <? length questions)%nat
           then Number.div totalMarks (Number.ofNat (length questions))
           else Number.zero)
  end.

Definition submittingToast : Toast :=
  mkToast None (js "Submitting exam...")
          (Some (js "Please wait while we process your submission.")) None.

Definition submittedToast : Toast :=
  mkToast None (js "Exam Submitted!")
          (Some (js "Your answers have been submitted.")) None.

Definition submissionFailedToast : Toast :=
  mkToast (Some (js "destructive")) (js "Submission Failed") None None.

(** A call of [setDocumentNonBlocking(ref, payload, { merge: true })]: the
    call is logged, and returns or throws as the environment has it. *)
Definition setDocumentNonBlocking (ref : list N) (payload : Submission.t) : M unit :=
  fun w =>
    let w' := mkWorld (fetched w) (invoked w) (uuids w)
                      (ui w ++ [SetDocument ref payload]) in
    match documentStore env (documentsOf (ui w)) ref payload with
    | None => (Normal tt, w')
    | Some e => (Throw e, w')
    end.

(** [user] is the uid of the signed-in user, [studentExamDocRef] the path of
    the document. *)
Definition handleSubmitExam (state : option State.t) (user : option (list N))
           (examData : option Exam.t) (examId : list N) (isSubmitting : bool)
           (studentExamDocRef : option (list N))
           (autoSubmitDetails : option (bool * Z)) : M unit :=
  match state, user, examData, isSubmitting, studentExamDocRef with
  | Some state, Some uid, Some examData, false, Some docRef =>
      _ <- emit (SetIsSubmitting true) ;;
      _ <- emit (ShowToast submittingToast) ;;
      acc <- forOf (default [] (Exam.questions examData)) (forQuestion state)
                   ([], Number.zero) ;;
      let '(finalAnswers, totalMarks) := acc in
      overallScore <- overallScore examData totalMarks ;;
      let submissionPayload :=
        Submission.mk uid examId (Exam.title examData) finalAnswers overallScore
          (State.language state)
          (fst <$> autoSubmitDetails) (snd <$> autoSubmitDetails)
          (match autoSubmitDetails with
           | Some _ => js "suspicious"
           | None => js "graded"
           end) in
      tryCatch
        (_ <- setDocumentNonBlocking docRef submissionPayload ;;
         _ <- emit (Dispatch FINISH_EXAM) ;;
         _ <- emit (ShowToast submittedToast) ;;
         emit (RouterPush (js "/student/dashboard")))
        (fun error =>
           _ <- emit (ConsoleError (js "Submission failed") error) ;;
           _ <- emit (ShowToast submissionFailedToast) ;;
           emit (SetIsSubmitting false))
  | _, _, _, _, _ => ret tt
  end.

End Page.


(** ** The exam page: the state it starts from *)

(** The document of a student's sitting, as far as the page reads it. *)
Module StudentExam.
Record t := mk {
  answers : option (list StudentAnswer.t);
  language : option (list N)
}.
End StudentExam.

(** The answer a question starts with: what the stored sitting has for it,
    if anything.  [v ?? undefined] is [v], [null] being no value either. *)
Definition initialAnswer (studentExamData : option StudentExam.t) (q : Question.t)
  : StudentAnswer.t :=
  let existingAnswer :=
    existingAnswers ← studentExamData ≫= StudentExam.answers ;
    List.find (fun a => strictEquals (StudentAnswer.questionId a) (Question.id q))
              existingAnswers in
  StudentAnswer.mk (Question.id q) (Some (Question.text q))
    (Some (orElse (existingAnswer ≫= StudentAnswer.status) notAnswered))
    (Some (orElse (existingAnswer ≫= StudentAnswer.sourceCode) []))
    (existingAnswer ≫= StudentAnswer.actualOutput)
    (existingAnswer ≫= StudentAnswer.isCorrect)
    (Some (default [] (existingAnswer ≫= StudentAnswer.testResults)))
    None None None.

(** [initialAnswers], filled by [forEach] over the questions. *)
Definition initialAnswers (studentExamData : option StudentExam.t)
           (questions : list Question.t) : gmap (list N) StudentAnswer.t :=
  foldl (fun answers q => <[Question.id q := initialAnswer studentExamData q]> answers)
        ∅ questions.

Definition initialState (examData : option Exam.t)
           (studentExamData : option StudentExam.t) : option State.t :=
  match examData with
  | None => None
  | Some examData =>
      Some (State.mk (Exam.duration examData * 60)%Z false false
              (initialAnswers studentExamData (default [] (Exam.questions examData)))
              (orElse (studentExamData ≫= StudentExam.language)
                      (orElse (Exam.language examData) (js "python"))))
  end.

(** ** The exam page: the timer *)

(** [String(n)] for an integer [n], all of whose digits JavaScript writes
    (it does below 10^21). *)
Definition numberToString (n : Z) : list N :=
  js (NilZero.string_of_int (Z.to_int n)).

(** [s.padStart(targetLength, pad)] for a [pad] of one code unit. *)
Definition padStart (targetLength : nat) (pad : N) (s : list N) : list N :=
  replicate (targetLength - length s) pad ++ s.

Module ExamTimerView.
(** [destructive]: the class [text-destructive] is on. *)
Record t := mk { destructive : bool; text : list N }.
End ExamTimerView.

(** [Math.floor(timeLeft / 60)] is the quotient rounded down, [timeLeft % 60]
    the remainder with the sign of [timeLeft]. *)
Definition ExamTimer (timeLeft : Z) : ExamTimerView.t :=
  let minutes := (timeLeft / 60)%Z in
  let seconds := Z.rem timeLeft 60 in
  ExamTimerView.mk (timeLeft <? 300)%Z
    (padStart 2 48 (numberToString minutes) ++ js ":"
       ++ padStart 2 48 (numberToString seconds)).

(** ** The exam page: effects that depend on the state *)

(** The effect that ticks: it sets the interval that dispatches [TICK_TIMER]
    every second unless [!state || !state.examStarted || state.examFinished]. *)
Definition timerRuns (state : option State.t) : bool :=
  match state with
  | Some state => State.examStarted state && negb (State.examFinished state)
  | None => false
  end.

(** The effect that submits when the time is up: it calls [handleAutoSubmit]
    if [state?.timeLeft === 0 && state.examStarted && !state.examFinished]. *)
Definition submitsOnTimeUp (state : option State.t) : bool :=
  match state with
  | Some state =>
      (State.timeLeft state =? 0)%Z && State.examStarted state
      && negb (State.examFinished state)
  | None => false
  end.

(** ** The exam page: what it shows *)

Module EditorView.
(** What the editor screen shows of the exam and of the state: the title,
    the line [Question n of m], the selected language, whether the [End Exam]
    button is disabled, the timer, the problem statement, the inputs of the
    test cases, the editor's [value], whether the [Run Code] button is
    disabled, the badge [Passed] or [Failed] (shown when [isCorrect] is
    defined), and the two panes of the output card ([None] while the spinner
    replaces them). *)
Record t := mk {
  title : list N;
  questionNumber : nat;
  questionCount : nat;
  language : list N;
  endExamDisabled : bool;
  timer : ExamTimerView.t;
  problemStatement : list N;
  testCaseInputs : list (list N);
  code : list N;
  runDisabled : bool;
  badge : option bool;
  panes : option (list N * list N)
}.
End EditorView.

Inductive Screen :=
| LoadingExam
| ExamNotFound
| ExamAlreadyCompleted
| ExamNotReady
| StartPage
| LeftSecureEnvironment (countdown : option Z)
| ExamFinishedScreen (submitting : bool)
| Editor (view : EditorView.t).

(** [currentQuestion.testCases?.[0]?.expectedOutput || 'No sample output.']. *)
Definition sampleExpectedOutput (currentQuestion : Question.t) : list N :=
  orElse (TestCase.expectedOutput <$> (Question.testCases currentQuestion ≫= head))
         (js "No sample output.").

(** The body of [CodingExamInterface] after its hooks: the screen returned.
    Reading [currentQuestion.id] throws when [currentQuestionIndex] is past
    the questions. *)
Definition render (isExamLoading isStudentExamLoading : bool)
           (examData : option Exam.t) (state : option State.t)
           (studentExamData : option StudentExam.t)
           (currentQuestionIndex : nat) (isFullscreen isPageVisible : bool)
           (countdown : option Z) (isSubmitting isExecutingCode : bool)
  : Completion Screen :=
  if isExamLoading || isStudentExamLoading then Normal LoadingExam
  else
    match examData, state with
    | Some examData, Some state =>
        match studentExamData with
        | Some _ => Normal ExamAlreadyCompleted
        | None =>
            match Exam.questions examData with
            | None | Some [] => Normal ExamNotReady
            | Some questions =>
                match questions !! currentQuestionIndex with
                | None => Throw (typeErrorReading "id")
                | Some currentQuestion =>
                    let currentAnswer := State.answers state !! Question.id currentQuestion in
                    if negb (State.examStarted state) then Normal StartPage
                    else if State.examStarted state
                            && (negb isFullscreen || negb isPageVisible)
                    then Normal (LeftSecureEnvironment countdown)
                    else if State.examFinished state
                    then Normal (ExamFinishedScreen isSubmitting)
                    else
                      Normal (Editor
                        (EditorView.mk (Exam.title examData)
                           (currentQuestionIndex + 1) (length questions)
                           (State.language state) isSubmitting
                           (ExamTimer (State.timeLeft state))
                           (Question.text currentQuestion)
                           ((fun tc => orElse (Some (TestCase.input tc)) [34; 34])
                              <$> default [] (Question.testCases currentQuestion))
                           (orElse (currentAnswer ≫= StudentAnswer.sourceCode) [])
                           isExecutingCode
                           (currentAnswer ≫= StudentAnswer.isCorrect)
                           (if isExecutingCode then None
                            else Some (orElse (currentAnswer ≫= StudentAnswer.actualOutput)
                                              (js "Run code to see output."),
                                       sampleExpectedOutput currentQuestion))))
                end
            end
        end
    | _, _ => Normal ExamNotFound
    end.

(** * Vocabulary of the statements *)

(** ** Worlds *)

(** The world once the requests [reqs] have been sent. *)
Definition afterFetches (w : World) (reqs : list Request.t) : World :=
  mkWorld (fetched w ++ reqs) (invoked w) (uuids w) (ui w).

(** The world once [executeCode] has been called on [inputs]. *)
Definition afterInvokes (w : World) (inputs : list ExecuteCodeInput.t) : World :=
  mkWorld (fetched w) (invoked w ++ inputs) (uuids w) (ui w).

(** The world once [n] identifiers have been drawn. *)
Definition afterUuids (w : World) (n : nat) : World :=
  mkWorld (fetched w) (invoked w) (n + uuids w) (ui w).

(** The world once the events [es] have happened on the page. *)
Definition afterUi (w : World) (es : list UiEvent) : World :=
  mkWorld (fetched w) (invoked w) (uuids w) (ui w ++ es).

(** ** The flow *)

(** The number of results whose [isCorrect] is true. *)
Definition countCorrect (rs : list TestResult.t) : nat :=
  length (List.filter TestResult.isCorrect rs).

(** What the sandbox answers to the request for the [i]-th test case of
    [input], when the flow starts in world [w]: the requests for the test
    cases before it have been sent by then. *)
Definition answerAt (env : Env) (input : ExecuteCodeInput.t) (w : World) (i : nat)
  : option FetchOutcome :=
  tc ← ExecuteCodeInput.testCases input !! i ;
  Some (network env
          (fetched w ++ (requestFor input <$> take i (ExecuteCodeInput.testCases input)))
          (requestFor input tc)).

(** The remote call for a test case fails: [fetch] rejects, the status is
    not a 2xx one, the body cannot be parsed, or it has no [run]. *)
Definition remoteCallFails (outcome : FetchOutcome) : bool :=
  match outcome with
  | FetchRejects _ => true
  | FetchResolves response =>
      negb (ok response)
      || match json response with
         | JsonResult (Some _) => false
         | _ => true
         end
  end.

(** The remote call for a test case succeeds with [run]. *)
Definition succeedsWith (outcome : option FetchOutcome) (run : Run) : Prop :=
  exists statusText,
    outcome = Some (FetchResolves (mkResponse true statusText (JsonResult (Some run)))).

(** The result recorded for a test case whose request came to [outcome]. *)
Definition outcomeResult (outcome : FetchOutcome) (testCase : TestCase.t) : TestResult.t :=
  let failed (error : JsError) :=
    TestResult.mk None (TestCase.input testCase) (TestCase.expectedOutput testCase)
      (js "Execution Failed") false
      (Some (orElse (message error) (js "An unknown error occurred."))) in
  match outcome with
  | FetchRejects e => failed e
  | FetchResolves response =>
      if ok response then
        match json response with
        | JsonThrows e => failed e
        | JsonResult None => failed (typeErrorReading "output")
        | JsonResult (Some run) =>
            let actualOutput := trim (orElse (output run) []) in
            TestResult.mk None (TestCase.input testCase)
              (TestCase.expectedOutput testCase) actualOutput
              (strictEquals actualOutput (trim (TestCase.expectedOutput testCase)))
              (orUndefined (stderr run))
        end
      else
        TestResult.mk None (TestCase.input testCase) (TestCase.expectedOutput testCase)
          (apiError response) false (Some (apiError response))
  end.

(** The results of the test cases [testCases] of [input], the first of them
    requested after [history]. *)
Fixpoint flowResults (env : Env) (input : ExecuteCodeInput.t)
         (history : list Request.t) (testCases : list TestCase.t) : list TestResult.t :=
  match testCases with
  | [] => []
  | testCase :: rest =>
      outcomeResult (network env history (requestFor input testCase)) testCase
        :: flowResults env input (history ++ [requestFor input testCase]) rest
  end.

(** The summary of the flow on [input] after [history]. *)
Definition flowOutput (env : Env) (input : ExecuteCodeInput.t)
           (history : list Request.t) : ExecuteCodeOutput.t :=
  let results := flowResults env input history (ExecuteCodeInput.testCases input) in
  ExecuteCodeOutput.mk results (countCorrect results)
                       (length (ExecuteCodeInput.testCases input)).

(** ** The reducer *)

(** The status recorded for a question, if any. *)
Definition statusOf (state : State.t) (questionId : list N) : option (list N) :=
  State.answers state !! questionId ≫= StudentAnswer.status.

Definition isInitialize (action : Action) : bool :=
  match action with
  | INITIALIZE _ => true
  | _ => false
  end.

(** [action] reports a passing run of the question [questionId]. *)
Definition isPassingRunOf (questionId : list N) (action : Action) : bool :=
  match action with
  | SET_RUN_RESULT questionId' _ true => bool_decide (questionId' = questionId)
  | _ => false
  end.

(** ** Submission *)

(** The question has an answer with source code in it. *)
Definition attempted (state : State.t) (question : Question.t) : bool :=
  match State.answers state !! Question.id question with
  | Some answer => truthy (StudentAnswer.sourceCode answer)
  | None => false
  end.

(** The input [handleSubmitExam] builds for an attempted question. *)
Definition submitInput (state : State.t) (question : Question.t) : ExecuteCodeInput.t :=
  ExecuteCodeInput.mk (State.language state)
    (default [] (State.answers state !! Question.id question
                   ≫= StudentAnswer.sourceCode))
    (default [] (Question.testCases question)).

(** The marks of a submitted answer, [0] when it has none. *)
Definition marksOf (answer : StudentAnswer.t) : number :=
  default Number.zero (StudentAnswer.marks answer).

(** The numbers added up one after the other, from [0] and from the left,
    every addition rounded. *)
Definition runningSum (l : list number) : number := foldl Number.add Number.zero l.

(** The running sum divided by how many numbers there are, [0] for no
    numbers. *)
Definition runningMean (l : list number) : number :=
  if (0 <? length l)%nat then Number.div (runningSum l) (Number.ofNat (length l))
  else Number.zero.

(** The sign bit of the number is clear, or the number is NaN. *)
Definition notNegative (x : number) : bool :=
  match x with
  | S754_zero s | S754_infinity s | S754_finite s _ _ => negb s
  | S754_nan => true
  end.

(** The results of a question whose execution failed as a whole, the first
    identifier being the [n]-th one. *)
Fixpoint failedResults (env : Env) (n : nat) (testCases : list TestCase.t)
  : list TestResult.t :=
  match testCases with
  | [] => []
  | tc :: rest =>
      TestResult.mk (Some (uuidSource env n)) (TestCase.input tc)
        (TestCase.expectedOutput tc) (js "Execution Error on Submit") false
        (Some (js "Submission execution failed"))
        :: failedResults env (S n) rest
  end.

(** The payloads handed over for writing by the handler. *)
Definition submitted (w : World) : list Submission.t := documentsOf (ui w).

(** The actions dispatched by the handler. *)
Definition dispatched (w : World) : list Action :=
  omap (fun e => match e with Dispatch a => Some a | _ => None end) (ui w).

(** ** Computations *)

(** [m], started in [w], returns [a] and leaves the world [w']. *)
Definition returns {A} (m : M A) (w : World) (a : A) (w' : World) : Prop :=
  m w = (Normal a, w').

(** [m], started in [w], throws [e] and leaves the world [w']. *)
Definition throws {A} (m : M A) (w : World) (e : JsError) (w' : World) : Prop :=
  m w = (Throw e, w').

(** What the loop of [handleSubmitExam] records for the question [q]: an
    answer under the identifier and the text of the question, with marks
    that are not negative, and the blank answer when [q] was not attempted. *)
Definition graded (state : State.t) (q : Question.t) (a : StudentAnswer.t) : Prop :=
  StudentAnswer.questionId a = Question.id q
  /\ StudentAnswer.questionText a = Some (Question.text q)
  /\ (exists m, StudentAnswer.marks a = Some m /\ notNegative m = true)
  /\ (attempted state q = false -> a = unattempted q).

(** The payload of a submission with the answers [finalAnswers] and the
    score [score]. *)
Definition payloadOf (state : State.t) (uid : list N) (examData : Exam.t)
           (examId : list N) (autoSubmitDetails : option (bool * Z))
           (finalAnswers : list StudentAnswer.t) (score : number) : Submission.t :=
  Submission.mk uid examId (Exam.title examData) finalAnswers score
    (State.language state)
    (fst <$> autoSubmitDetails) (snd <$> autoSubmitDetails)
    (match autoSubmitDetails with
     | Some _ => js "suspicious"
     | None => js "graded"
     end).

(** ** Strings *)

(** [s] does not start with white space. *)
Definition startsClean (s : list N) : bool :=
  match s with
  | [] => true
  | c :: _ => negb (isWhiteSpace c)
  end.

(** ** Answers in the state of the page *)

(** The code, the output and the verdict recorded for a question, if any. *)
Definition codeOf (state : State.t) (questionId : list N) : option (list N) :=
  State.answers state !! questionId ≫= StudentAnswer.sourceCode.

Definition outputOf (state : State.t) (questionId : list N) : option (list N) :=
  State.answers state !! questionId ≫= StudentAnswer.actualOutput.

Definition verdictOf (state : State.t) (questionId : list N) : option bool :=
  State.answers state !! questionId ≫= StudentAnswer.isCorrect.

(** No action of the list is [INITIALIZE]. *)
Definition noInitialize (actions : list Action) : bool :=
  forallb (fun a => negb (isInitialize a)) actions.

(** ** A run of the current question *)

(** The state, the question that [handleRunCode] runs and the answer to it,
    when the handler gets past its guard. *)
Definition current (state : option State.t) (examData : option Exam.t)
           (currentQuestionIndex : nat)
  : option (State.t * Question.t * StudentAnswer.t) :=
  state ← state ;
  examData ← examData ;
  questions ← Exam.questions examData ;
  q ← questions !! currentQuestionIndex ;
  a ← State.answers state !! Question.id q ;
  Some (state, q, a).

(** The test cases of a run, [n] identifiers having been drawn before it. *)
Definition sampleOf (env : Env) (q : Question.t) (n : nat) : list TestCase.t :=
  match Question.testCases q with
  | Some testCases => take 1 testCases
  | None => [TestCase.mk (uuidSource env n) [] []]
  end.

(** The input of a run. *)
Definition runInput (env : Env) (state : State.t) (q : Question.t)
           (a : StudentAnswer.t) (n : nat) : ExecuteCodeInput.t :=
  ExecuteCodeInput.mk (State.language state)
    (orElse (StudentAnswer.sourceCode a) []) (sampleOf env q n).

(** What the handler does on the page between switching the spinner on and
    off, given how the call of [executeCode] ended. *)
Definition runEvents (q : Question.t) (outcome : Completion ExecuteCodeOutput.t)
  : list UiEvent :=
  let failed (e : JsError) :=
    [ShowToast (mkToast (Some (js "destructive")) (js "Error") (message e) None)] in
  match outcome with
  | Throw e => failed e
  | Normal result =>
      match ExecuteCodeOutput.results result !! 0%nat with
      | None => failed (typeErrorReading "error")
      | Some r =>
          match TestResult.error r with
          | Some (c :: s) =>
              [ShowToast (mkToast (Some (js "destructive")) (js "Execution Error")
                                  (Some (c :: s)) None);
               Dispatch (SET_RUN_RESULT (Question.id q) (c :: s) false)]
          | _ =>
              Dispatch (SET_RUN_RESULT (Question.id q) (TestResult.actualOutput r)
                                       (TestResult.isCorrect r))
                :: (if TestResult.isCorrect r
                    then [ShowToast
                            (mkToast None (js "Test Case Passed!")
                               (Some (js "This question is now marked as answered."))
                               (Some (js "bg-green-100 text-green-800")))]
                    else [])
          end
      end
  end.

(** An event of a run: a toast, or the result of the run of [q]. *)
Definition isRunEvent (q : Question.t) (e : UiEvent) : bool :=
  match e with
  | ShowToast _ => true
  | Dispatch (SET_RUN_RESULT questionId _ _) => bool_decide (questionId = Question.id q)
  | _ => false
  end.

(** The world in which a run calls [executeCode]: the spinner is on, and an
    identifier has been drawn if the question has no list of test cases. *)
Definition beforeRun (q : Question.t) (w : World) : World :=
  afterUuids (afterUi w [SetIsExecutingCode true])
             (if Question.testCases q is Some _ then 0 else 1).

(** ** The clock *)

(** The two decimal digits of a number below 100. *)
Definition twoDigits (n : Z) : list N :=
  [48 + Z.to_N (n / 10); 48 + Z.to_N (n mod 10)].

(** [mm:ss]. *)
Definition clock (seconds : Z) : list N :=
  twoDigits (seconds / 60) ++ [58] ++ twoDigits (seconds mod 60).

(** What follows the write of the document on the page: the exam is finished
    and left or, if the write threw [e], the failure is reported and the
    submitting flag is reset. *)
Definition afterWrite (outcome : option JsError) : list UiEvent :=
  match outcome with
  | None =>
      [Dispatch FINISH_EXAM; ShowToast submittedToast;
       RouterPush (js "/student/dashboard")]
  | Some e =>
      [ConsoleError (js "Submission failed") e; ShowToast submissionFailedToast;
       SetIsSubmitting false]
  end.

(** * Examples *)

(** An environment that follows a script: the [n]-th request is answered with
    the [n]-th outcome and the [n]-th call of the flow meets the [n]-th fate;
    past the script the network is down and the flow completes.  Documents
    are written without trouble. *)
Definition scripted (answers : list FetchOutcome) (fates : list FlowFate) : Env :=
  mkEnv
    (fun history _ =>
       default (FetchRejects (mkError (Some (js "fetch failed"))))
               (answers !! length history))
    (fun history _ => default FlowCompletes (fates !! length history))
    (fun n => js "uuid-" ++ [48 + N.of_nat n])
    (fun _ _ _ => None).

(** The environment [env], except that every write of a document throws. *)
Definition storeDown (env : Env) : Env :=
  mkEnv (network env) (flowWrapper env) (uuidSource env)
        (fun _ _ _ => Some (mkError (Some (js "Missing or insufficient permissions.")))).

(** The sandbox ran the program: it printed [out] and wrote [err] to the
    error stream. *)
Definition ran (out err : option (list N)) : FetchOutcome :=
  FetchResolves (mkResponse true (js "OK") (JsonResult (Some (mkRun out err)))).

Definition serverError : FetchOutcome :=
  FetchResolves (mkResponse false (js "Internal Server Error") (JsonResult None)).

(** [42] followed by a line feed. *)
Definition fortyTwoLine : list N := js "42" ++ [10].

Definition answerIs42 : TestCase.t := TestCase.mk (js "t1") [] (js "42").
Definition greeting : TestCase.t := TestCase.mk (js "t2") (js "World") (js "hello").

Definition python (sourceCode : list N) (testCases : list TestCase.t)
  : ExecuteCodeInput.t :=
  ExecuteCodeInput.mk (js "python") sourceCode testCases.

(** *** An exam of three questions *)

Definition printQuestion : Question.t :=
  Question.mk (js "q1") (js "Print 42.") (Some [answerIs42]).

Definition twiceQuestion : Question.t :=
  Question.mk (js "q2") (js "Print 42, twice over.") (Some [answerIs42; answerIs42]).

Definition greetQuestion : Question.t :=
  Question.mk (js "q3") (js "Greet the reader.") (Some [greeting]).

Definition midterm : Exam.t :=
  Exam.mk (js "Midterm") 30 None (Some [printQuestion; twiceQuestion; greetQuestion]).

(** The answer the page starts a question with. *)
Definition blankAnswer (question : Question.t) : StudentAnswer.t :=
  StudentAnswer.mk (Question.id question) (Some (Question.text question))
    (Some notAnswered) (Some []) None None (Some []) None None None.

(** An answer with code in the editor and the status [status]. *)
Definition codeAnswer (question : Question.t) (status sourceCode : list N)
  : StudentAnswer.t :=
  StudentAnswer.mk (Question.id question) (Some (Question.text question))
    (Some status) (Some sourceCode) None None (Some []) None None None.

(** A running exam with the answers [answers]. *)
Definition sitting (answers : list StudentAnswer.t) : State.t :=
  State.mk 1800 true false
    (list_to_map ((fun a => (StudentAnswer.questionId a, a)) <$> answers))
    (js "python").

(** Every question has code. *)
Definition allAttempted : State.t :=
  sitting [codeAnswer printQuestion notAnswered (js "print(42)");
           codeAnswer twiceQuestion notAnswered (js "print(42)");
           codeAnswer greetQuestion notAnswered (js "print(42)")].

(** The first question is left blank, the others have code. *)
Definition firstLeftBlank : State.t :=
  sitting [blankAnswer printQuestion;
           codeAnswer twiceQuestion notAnswered (js "print(41)");
           codeAnswer greetQuestion notAnswered (js "print('hello')")].

(** The sandbox prints [42] and a line feed, whatever it is asked. *)
Definition always42 : Env :=
  scripted [ran (Some fortyTwoLine) None; ran (Some fortyTwoLine) None;
            ran (Some fortyTwoLine) None; ran (Some fortyTwoLine) None] [].

(** The sandbox prints [42] for the first two requests and [41] afterwards:
    on [allAttempted] the questions get 1 of 1, 1 of 2 and 0 of 1. *)
Definition twoThenWrong : Env :=
  scripted [ran (Some fortyTwoLine) None; ran (Some fortyTwoLine) None;
            ran (Some (js "41")) None; ran (Some (js "41")) None] [].

(** The sandbox prints [41]; the first call of the flow completes and the
    second one throws before it has run. *)
Definition secondCallThrows : Env :=
  scripted [ran (Some (js "41")) None; ran (Some (js "41")) None]
           [FlowCompletes; FlowThrowsBefore (mkError (Some (js "Failed to fetch")))].

(** The flow throws at once. *)
Definition flowDown : Env :=
  scripted [] [FlowThrowsBefore (mkError (Some (js "Failed to fetch")))].

(** The sandbox runs the program to the right output, with a warning on the
    error stream. *)
Definition warns : Env :=
  scripted [ran (Some fortyTwoLine) (Some (js "warning: unused variable"))] [].

Definition student : list N := js "uid-1".
Definition examId1 : list N := js "exam-1".
Definition docRef1 : list N := js "studentExams/uid-1_exam-1".

(** *** An exam with odd questions *)

(** A question with no list of test cases, and one with an empty list. *)
Definition freeQuestion : Question.t := Question.mk (js "q4") (js "Do nothing.") None.
Definition bareQuestion : Question.t := Question.mk (js "q5") (js "Anything.") (Some []).

Definition oddExam : Exam.t :=
  Exam.mk (js "Quiz") 10 (Some (js "python")) (Some [freeQuestion; bareQuestion]).

Definition oddSitting : State.t :=
  sitting [codeAnswer freeQuestion notAnswered (js "pass");
           codeAnswer bareQuestion notAnswered (js "pass")].

(** The sandbox prints nothing but a line feed. *)
Definition silent : Env := scripted [ran (Some [10]) None] [].

(** An exam document without a [questions] field. *)
Definition draftExam : Exam.t := Exam.mk (js "Draft") 30 None None.

(** *** A question with many test cases *)





(** * Properties *)

(** ** Strings *)

Lemma strictEquals_spec (a b : list N) : strictEquals a b = true <-> a = b.
Proof.
  revert b; induction a as [|x a IH]; intros [|y b]; simpl; try (split; congruence).
  rewrite andb_true_iff, N.eqb_eq, IH. split.
  - intros [-> ->]; reflexivity.
  - intros [= -> ->]; auto.
Qed.

Lemma orElse_Some_nil (s : list N) : orElse (Some s) [] = s.
Proof. destruct s; reflexivity. Qed.

Lemma orElse_nonempty (v : option (list N)) (d : list N) :
  d <> [] -> exists c s, orElse v d = c :: s.
Proof.
  intros Hd. destruct v as [[|c s]|]; simpl; eauto;
    destruct d as [|c s]; try congruence; eauto.
Qed.

(** ** The flow as a function of what the sandbox answers *)

Lemma forTestCase_eq (env : Env) (input : ExecuteCodeInput.t)
      (results : list TestResult.t) (totalPassed : nat) (testCase : TestCase.t)
      (w : World) :
  let r := outcomeResult (network env (fetched w) (requestFor input testCase)) testCase in
  forTestCase env input (results, totalPassed) testCase w
  = (Normal (results ++ [r],
             if TestResult.isCorrect r then S totalPassed else totalPassed),
     afterFetches w [requestFor input testCase]).
Proof.
  unfold forTestCase, tryCatch, bind, fetch, outcomeResult, afterFetches.
  destruct (network env (fetched w) (requestFor input testCase)) as [e|[o st j]];
    simpl; [reflexivity|].
  destruct o; simpl; [|reflexivity].
  destruct j as [e|[run|]]; simpl; reflexivity.
Qed.

Lemma afterFetches_app (w : World) (a b : list Request.t) :
  afterFetches (afterFetches w a) b = afterFetches w (a ++ b).
Proof. unfold afterFetches; simpl. rewrite <- app_assoc. reflexivity. Qed.

Lemma afterFetches_nil (w : World) : afterFetches w [] = w.
Proof. destruct w; unfold afterFetches; simpl. rewrite app_nil_r. reflexivity. Qed.

Lemma countCorrect_cons (r : TestResult.t) (rs : list TestResult.t) :
  countCorrect (r :: rs)
  = ((if TestResult.isCorrect r then 1 else 0) + countCorrect rs)%nat.
Proof. unfold countCorrect; simpl. destruct (TestResult.isCorrect r); reflexivity. Qed.

Lemma forOf_forTestCase (env : Env) (input : ExecuteCodeInput.t)
      (testCases : list TestCase.t) (results : list TestResult.t)
      (totalPassed : nat) (w : World) :
  let rs := flowResults env input (fetched w) testCases in
  forOf testCases (forTestCase env input) (results, totalPassed) w
  = (Normal (results ++ rs, (totalPassed + countCorrect rs)%nat),
     afterFetches w (requestFor input <$> testCases)).
Proof.
  revert results totalPassed w.
  induction testCases as [|tc tcs IH]; intros results totalPassed w;
    cbn [forOf flowResults fmap list_fmap].
  - unfold ret. rewrite app_nil_r, afterFetches_nil.
    unfold countCorrect; simpl. rewrite Nat.add_0_r. reflexivity.
  - unfold bind at 1. rewrite forTestCase_eq. cbv zeta. rewrite IH. cbv zeta.
    rewrite afterFetches_app. cbn [fetched afterFetches].
    rewrite <- app_assoc. cbn [app]. rewrite countCorrect_cons.
    destruct (TestResult.isCorrect _); do 3 f_equal; lia.
Qed.

(** The body of the flow always returns, with the results read off the
    answers of the sandbox and one request logged for each test case. *)
Lemma executeCodeFlow_eq (env : Env) (input : ExecuteCodeInput.t) (w : World) :
  executeCodeFlow env input w
  = (Normal (flowOutput env input (fetched w)),
     afterFetches w (requestFor input <$> ExecuteCodeInput.testCases input)).
Proof.
  unfold executeCodeFlow, bind. rewrite forOf_forTestCase. reflexivity.
Qed.

Lemma flowResults_length (env : Env) (input : ExecuteCodeInput.t)
      (history : list Request.t) (testCases : list TestCase.t) :
  length (flowResults env input history testCases) = length testCases.
Proof.
  revert history; induction testCases as [|tc tcs IH]; intros history; simpl;
    [reflexivity | rewrite IH; reflexivity].
Qed.

Lemma flowResults_lookup (env : Env) (input : ExecuteCodeInput.t)
      (history : list Request.t) (testCases : list TestCase.t) (i : nat) :
  flowResults env input history testCases !! i
  = (tc ← testCases !! i ;
     Some (outcomeResult
             (network env (history ++ (requestFor input <$> take i testCases))
                      (requestFor input tc)) tc)).
Proof.
  revert history i; induction testCases as [|tc tcs IH]; intros history [|i]; simpl;
    try reflexivity.
  - rewrite app_nil_r. reflexivity.
  - rewrite IH. rewrite <- app_assoc. reflexivity.
Qed.

(** The result at a position is the one of the answer at that position. *)
Lemma flowOutput_lookup (env : Env) (input : ExecuteCodeInput.t) (w : World)
      (i : nat) (tc : TestCase.t) (outcome : FetchOutcome) :
  ExecuteCodeInput.testCases input !! i = Some tc ->
  answerAt env input w i = Some outcome ->
  ExecuteCodeOutput.results (flowOutput env input (fetched w)) !! i
  = Some (outcomeResult outcome tc).
Proof.
  unfold answerAt, flowOutput; simpl. intros Htc. rewrite flowResults_lookup, Htc.
  simpl. intros [= <-]. reflexivity.
Qed.

Lemma flowResults_copied (env : Env) (input : ExecuteCodeInput.t)
      (history : list Request.t) (testCases : list TestCase.t) :
  (fun r => (TestResult.input r, TestResult.expectedOutput r))
    <$> flowResults env input history testCases
  = (fun tc => (TestCase.input tc, TestCase.expectedOutput tc)) <$> testCases.
Proof.
  revert history; induction testCases as [|tc tcs IH]; intros history; simpl;
    [reflexivity|].
  rewrite IH. f_equal.
  unfold outcomeResult.
  destruct (network env history (requestFor input tc)) as [e|[o st j]]; simpl;
    [reflexivity|].
  destruct o; simpl; [|reflexivity]. destruct j as [e|[run|]]; reflexivity.
Qed.

Lemma countCorrect_le (rs : list TestResult.t) : (countCorrect rs <= length rs)%nat.
Proof.
  induction rs as [|r rs IH]; [unfold countCorrect; simpl; lia|].
  rewrite countCorrect_cons. simpl length. destruct (TestResult.isCorrect r); lia.
Qed.

(** ** Claims on [executeCodeFlow] *)

(** C1.  For a test case whose remote call succeeds, the result the flow
    records has [isCorrect] true if and only if the output of the sandbox,
    trimmed at both ends, is the same sequence of code units as the trimmed
    expected output of the test case. *)
Theorem C1_isCorrect_iff_trimmed_outputs_equal
        (env : Env) (input : ExecuteCodeInput.t) (w : World) (i : nat)
        (tc : TestCase.t) (run : Run) :
  ExecuteCodeInput.testCases input !! i = Some tc ->
  succeedsWith (answerAt env input w i) run ->
  exists out w' r,
    returns (executeCodeFlow env input) w out w' /\
    ExecuteCodeOutput.results out !! i = Some r /\
    (TestResult.isCorrect r = true
     <-> trim (orElse (output run) []) = trim (TestCase.expectedOutput tc)).
Proof.
  intros Htc [st Hanswer].
  eexists _, _, _. split; [apply executeCodeFlow_eq|].
  split; [eapply flowOutput_lookup; eassumption|].
  simpl. apply strictEquals_spec.
Qed.

Lemma C1_witness_whitespace_at_the_end_matches :
  exists out w' r,
    returns (executeCodeFlow (scripted [ran (Some fortyTwoLine) None] [])
                             (python (js "print(42)") [answerIs42]))
            initialWorld out w' /\
    ExecuteCodeOutput.results out !! 0%nat = Some r /\
    (TestResult.isCorrect r = true
     <-> trim (orElse (output (mkRun (Some fortyTwoLine) None)) [])
         = trim (TestCase.expectedOutput answerIs42)).
Proof.
  apply (C1_isCorrect_iff_trimmed_outputs_equal
           (scripted [ran (Some fortyTwoLine) None] [])
           (python (js "print(42)") [answerIs42]) initialWorld 0 answerIs42
           (mkRun (Some fortyTwoLine) None)).
  - reflexivity.
  - exists (js "OK"). reflexivity.
Defined.

(** The two examples of the specification: [42] and a line feed against [42]
    passes, [Hello] against [hello] does not. *)
Lemma executeCodeFlow_examples :
  (TestResult.isCorrect <$>
     ExecuteCodeOutput.results
       (flowOutput (scripted [ran (Some fortyTwoLine) None; ran (Some (js "Hello")) None] [])
                   (python (js "print(42)") [answerIs42; greeting]) []))
  = [true; false].
Proof. vm_compute. reflexivity. Qed.

(** C2.  When the remote call for a test case fails, the result recorded for
    it has [isCorrect] false, a non-empty [error] and a readable
    [actualOutput]: [Execution Failed], or [API Error: ] and the status text;
    the flow still returns one result for every test case and has sent the
    request of every test case. *)
Theorem C2_failing_call_is_recorded_and_the_batch_goes_on
        (env : Env) (input : ExecuteCodeInput.t) (w : World) (i : nat)
        (outcome : FetchOutcome) :
  answerAt env input w i = Some outcome ->
  remoteCallFails outcome = true ->
  exists out w' r,
    returns (executeCodeFlow env input) w out w' /\
    ExecuteCodeOutput.results out !! i = Some r /\
    TestResult.isCorrect r = false /\
    (exists c s, TestResult.error r = Some (c :: s)) /\
    (TestResult.actualOutput r = js "Execution Failed"
     \/ exists response,
         outcome = FetchResolves response /\
         TestResult.actualOutput r = js "API Error: " ++ statusText response) /\
    length (ExecuteCodeOutput.results out) = length (ExecuteCodeInput.testCases input) /\
    fetched w' = fetched w ++ (requestFor input <$> ExecuteCodeInput.testCases input).
Proof.
  intros Hanswer Hfails.
  destruct (ExecuteCodeInput.testCases input !! i) as [tc|] eqn:Htc;
    [|unfold answerAt in Hanswer; rewrite Htc in Hanswer; discriminate].
  eexists _, _, _. split; [apply executeCodeFlow_eq|].
  split; [eapply flowOutput_lookup; eassumption|].
  assert (Hunknown : js "An unknown error occurred." <> []) by discriminate.
  repeat split.
  - destruct outcome as [e|[o st j]]; simpl in *; [reflexivity|].
    destruct o; simpl in *; [|reflexivity].
    destruct j as [e|[run|]]; simpl in *; try reflexivity. discriminate.
  - destruct outcome as [e|[o st j]]; simpl in *.
    + destruct (orElse_nonempty (message e) _ Hunknown) as (c & s & ->). eauto.
    + destruct o; simpl in *; [|eexists _, _; reflexivity].
      destruct j as [e|[run|]]; simpl in *; try discriminate.
      * destruct (orElse_nonempty (message e) _ Hunknown) as (c & s & ->). eauto.
      * eexists _, _; reflexivity.
  - destruct outcome as [e|[o st j]]; simpl in *; [left; reflexivity|].
    destruct o; simpl in *.
    + destruct j as [e|[run|]]; simpl in *; try discriminate; left; reflexivity.
    + right. eexists. split; reflexivity.
  - simpl. apply flowResults_length.
Qed.

Lemma C2_witness_second_of_three_calls_fails :
  exists out w' r,
    returns (executeCodeFlow
               (scripted [ran (Some fortyTwoLine) None; serverError;
                          ran (Some (js "hello")) None] [])
               (python (js "print(42)") [answerIs42; answerIs42; greeting]))
            initialWorld out w' /\
    ExecuteCodeOutput.results out !! 1%nat = Some r /\
    TestResult.isCorrect r = false /\
    (exists c s, TestResult.error r = Some (c :: s)) /\
    (TestResult.actualOutput r = js "Execution Failed"
     \/ exists response,
         serverError = FetchResolves response /\
         TestResult.actualOutput r = js "API Error: " ++ statusText response) /\
    length (ExecuteCodeOutput.results out) = 3%nat /\
    fetched w'
    = fetched initialWorld
        ++ (requestFor (python (js "print(42)") [answerIs42; answerIs42; greeting])
              <$> [answerIs42; answerIs42; greeting]).
Proof.
  apply (C2_failing_call_is_recorded_and_the_batch_goes_on
           (scripted [ran (Some fortyTwoLine) None; serverError;
                      ran (Some (js "hello")) None] [])
           (python (js "print(42)") [answerIs42; answerIs42; greeting])
           initialWorld 1 serverError); reflexivity.
Defined.

(** C3.  For every input the flow returns a summary whose [results] has the
    length of [testCases], whose [totalCases] is that length, and whose
    results carry, position by position, the [input] and the [expectedOutput]
    of the test cases. *)
Theorem C3_results_follow_the_test_cases
        (env : Env) (input : ExecuteCodeInput.t) (w : World) :
  exists out w',
    returns (executeCodeFlow env input) w out w' /\
    length (ExecuteCodeOutput.results out) = length (ExecuteCodeInput.testCases input) /\
    ExecuteCodeOutput.totalCases out = length (ExecuteCodeInput.testCases input) /\
    ((fun r => (TestResult.input r, TestResult.expectedOutput r))
       <$> ExecuteCodeOutput.results out)
    = ((fun tc => (TestCase.input tc, TestCase.expectedOutput tc))
         <$> ExecuteCodeInput.testCases input).
Proof.
  eexists _, _. split; [apply executeCodeFlow_eq|]. simpl.
  split; [apply flowResults_length|]. split; [reflexivity|].
  apply flowResults_copied.
Qed.

(** C4.  For every input, [totalPassed] of the summary is the number of
    results whose [isCorrect] is true. *)
Theorem C4_totalPassed_counts_the_correct_results
        (env : Env) (input : ExecuteCodeInput.t) (w : World) :
  exists out w',
    returns (executeCodeFlow env input) w out w' /\
    ExecuteCodeOutput.totalPassed out = countCorrect (ExecuteCodeOutput.results out).
Proof.
  eexists _, _. split; [apply executeCodeFlow_eq|]. reflexivity.
Qed.

(** C8.  When the remote call succeeds and the sandbox reports a non-empty
    error stream, the result carries it in [error], and [isCorrect] is still
    the comparison of the trimmed outputs: it is true when they are equal. *)
Theorem C8_stderr_is_surfaced_whatever_isCorrect
        (env : Env) (input : ExecuteCodeInput.t) (w : World) (i : nat)
        (tc : TestCase.t) (run : Run) (c : N) (s : list N) :
  ExecuteCodeInput.testCases input !! i = Some tc ->
  succeedsWith (answerAt env input w i) run ->
  stderr run = Some (c :: s) ->
  exists out w' r,
    returns (executeCodeFlow env input) w out w' /\
    ExecuteCodeOutput.results out !! i = Some r /\
    TestResult.error r = Some (c :: s) /\
    (TestResult.isCorrect r = true
     <-> trim (orElse (output run) []) = trim (TestCase.expectedOutput tc)).
Proof.
  intros Htc [st Hanswer] Hstderr.
  eexists _, _, _. split; [apply executeCodeFlow_eq|].
  split; [eapply flowOutput_lookup; eassumption|].
  simpl. rewrite Hstderr. split; [reflexivity|]. apply strictEquals_spec.
Qed.

Lemma C8_witness_correct_run_with_a_warning :
  exists out w' r,
    returns (executeCodeFlow
               (scripted [ran (Some fortyTwoLine) (Some (js "warning: unused variable"))] [])
               (python (js "print(42)") [answerIs42]))
            initialWorld out w' /\
    ExecuteCodeOutput.results out !! 0%nat = Some r /\
    TestResult.error r = Some (js "warning: unused variable") /\
    (TestResult.isCorrect r = true <-> js "42" = js "42").
Proof.
  apply (C8_stderr_is_surfaced_whatever_isCorrect
           (scripted [ran (Some fortyTwoLine) (Some (js "warning: unused variable"))] [])
           (python (js "print(42)") [answerIs42]) initialWorld 0 answerIs42
           (mkRun (Some fortyTwoLine) (Some (js "warning: unused variable")))
           119 (js "arning: unused variable")).
  - reflexivity.
  - exists (js "OK"). reflexivity.
  - reflexivity.
Defined.

(** ** The reducer *)

Lemma statusOf_examReducer (state : State.t) (action : Action) (questionId : list N) :
  isInitialize action = false ->
  statusOf (examReducer state action) questionId
  = if isPassingRunOf questionId action then Some answered
    else statusOf state questionId.
Proof.
  intros Hinit. unfold statusOf.
  destruct action as [p| |q' src|l|q' out b| |]; try discriminate; simpl;
    try reflexivity.
  - destruct (decide (q' = questionId)) as [->|Hne].
    + rewrite lookup_insert_eq. simpl. unfold answerOrNew.
      destruct (State.answers state !! questionId); reflexivity.
    + rewrite lookup_insert_ne by assumption. reflexivity.
  - destruct (decide (q' = questionId)) as [->|Hne].
    + rewrite lookup_insert_eq. simpl. destruct b.
      * rewrite bool_decide_eq_true_2 by reflexivity. reflexivity.
      * unfold answerOrNew. destruct (State.answers state !! questionId); reflexivity.
    + rewrite lookup_insert_ne by assumption.
      destruct b; [rewrite bool_decide_eq_false_2 by assumption|]; reflexivity.
  - destruct (State.timeLeft state <=? 1)%Z; reflexivity.
Qed.

Lemma answered_is_kept (questionId : list N) (actions : list Action) (state : State.t) :
  forallb (fun a => negb (isInitialize a)) actions = true ->
  statusOf state questionId = Some answered ->
  statusOf (foldl examReducer state actions) questionId = Some answered.
Proof.
  revert state; induction actions as [|a actions IH]; intros state Hall Hs; simpl;
    [assumption|].
  simpl in Hall. apply andb_true_iff in Hall as [Ha Hall].
  apply IH; [assumption|].
  rewrite statusOf_examReducer by (destruct (isInitialize a); [discriminate|reflexivity]).
  destruct (isPassingRunOf questionId a); [reflexivity|assumption].
Qed.

(** C10.  An action other than [INITIALIZE], which replaces the whole state,
    makes the status of a question ['answered'] exactly when it is a
    [SET_RUN_RESULT] for that question with [isCorrect] true; any other
    action, a failing run among them, leaves the status of the question as it
    was.  So a question that is ['answered'] stays so through any later
    actions. *)
Theorem C10_status_answered_exactly_on_a_passing_run
        (state : State.t) (action : Action) (later : list Action)
        (questionId : list N) :
  isInitialize action = false ->
  forallb (fun a => negb (isInitialize a)) later = true ->
  statusOf (examReducer state action) questionId
  = (if isPassingRunOf questionId action then Some answered
     else statusOf state questionId)
  /\ (statusOf state questionId = Some answered ->
      statusOf (foldl examReducer state (action :: later)) questionId = Some answered).
Proof.
  intros Hinit Hlater. split; [apply statusOf_examReducer; assumption|].
  intros Hs. apply answered_is_kept; [|assumption].
  simpl. rewrite Hinit. assumption.
Qed.

Lemma C10_witness_failing_run_after_a_passing_one :
  statusOf (examReducer
              (sitting [codeAnswer printQuestion answered (js "print(42)")])
              (SET_RUN_RESULT (js "q1") (js "41") false))
           (js "q1")
  = (if isPassingRunOf (js "q1") (SET_RUN_RESULT (js "q1") (js "41") false)
     then Some answered
     else statusOf (sitting [codeAnswer printQuestion answered (js "print(42)")])
                   (js "q1"))
  /\ (statusOf (sitting [codeAnswer printQuestion answered (js "print(42)")]) (js "q1")
      = Some answered ->
      statusOf (foldl examReducer
                  (sitting [codeAnswer printQuestion answered (js "print(42)")])
                  (SET_RUN_RESULT (js "q1") (js "41") false
                     :: [UPDATE_CODE (js "q1") (js "print(41)"); TICK_TIMER;
                         SET_RUN_RESULT (js "q1") (js "Execution Failed") false]))
               (js "q1")
      = Some answered).
Proof.
  apply (C10_status_answered_exactly_on_a_passing_run
           (sitting [codeAnswer printQuestion answered (js "print(42)")])
           (SET_RUN_RESULT (js "q1") (js "41") false)
           [UPDATE_CODE (js "q1") (js "print(41)"); TICK_TIMER;
            SET_RUN_RESULT (js "q1") (js "Execution Failed") false]
           (js "q1")); reflexivity.
Defined.

(** ** Numbers *)

(** *** Signs *)

Lemma binary_round_aux_notNegative (m e : Z) (l : location) :
  notNegative (binary_round_aux prec emax false m e l) = true.
Proof.
  unfold binary_round_aux.
  destruct (shr_fexp prec emax m e l) as [mrs' e'].
  destruct (shr_fexp prec emax _ e' loc_Exact) as [mrs'' e''].
  destruct (shr_m mrs''); try reflexivity.
  destruct (Z.leb _ _); reflexivity.
Qed.

Lemma binary_round_notNegative (m : positive) (e : Z) :
  notNegative (binary_round prec emax false m e) = true.
Proof.
  unfold binary_round. destruct (shl_align _ _ _) as [mz ez].
  apply binary_round_aux_notNegative.
Qed.

Lemma ofNat_notNegative (n : nat) : notNegative (Number.ofNat n) = true.
Proof.
  unfold Number.ofNat, binary_normalize.
  destruct (Z.of_nat n) eqn:Hn; [reflexivity | apply binary_round_notNegative | lia].
Qed.

Lemma div_notNegative (x y : number) :
  notNegative x = true -> notNegative y = true -> notNegative (Number.div x y) = true.
Proof.
  destruct x as [[]|[]| |[] mx ex], y as [[]|[]| |[] my ey]; try discriminate;
    try reflexivity.
  intros _ _. unfold Number.div, SFdiv.
  destruct (SFdiv_core_binary _ _ _ _ _ _) as [[mz ez] lz].
  apply binary_round_aux_notNegative.
Qed.

Lemma mul_notNegative (x y : number) :
  notNegative x = true -> notNegative y = true -> notNegative (Number.mul x y) = true.
Proof.
  destruct x as [[]|[]| |[] mx ex], y as [[]|[]| |[] my ey]; try discriminate;
    try reflexivity.
  intros _ _. apply binary_round_aux_notNegative.
Qed.

Lemma add_notNegative (x y : number) :
  notNegative x = true -> notNegative y = true -> notNegative (Number.add x y) = true.
Proof.
  destruct x as [[]|[]| |[] mx ex], y as [[]|[]| |[] my ey]; try discriminate;
    try reflexivity.
  intros _ _. unfold Number.add, SFadd. cbn [cond_Zopp Z.add].
  apply binary_round_notNegative.
Qed.

(** Adding [0] changes nothing, but for the negative zero. *)
Lemma add_zero_r (x : number) : notNegative x = true -> Number.add x Number.zero = x.
Proof. destruct x as [[]|[]| |[] mx ex]; try discriminate; reflexivity. Qed.

Lemma marksForQuestion_notNegative (result : ExecuteCodeOutput.t) :
  notNegative (marksForQuestion result) = true.
Proof.
  unfold marksForQuestion.
  destruct (0 <? ExecuteCodeOutput.totalCases result)%nat; [|reflexivity].
  apply mul_notNegative; [apply div_notNegative|]; apply ofNat_notNegative.
Qed.



(** *** The number of a count that is not 0 *)

Lemma digits2_pos_bound (p : positive) :
  (2 ^ (Zpos (digits2_pos p) - 1) <= Zpos p)%Z.
Proof.
  induction p as [p IH|p IH|]; cbn [digits2_pos]; [| |cbn; lia].
  - rewrite Pos2Z.inj_succ.
    replace (Z.succ (Zpos (digits2_pos p)) - 1)%Z
      with (Z.succ (Zpos (digits2_pos p) - 1)) by lia.
    rewrite Z.pow_succ_r by lia. lia.
  - rewrite Pos2Z.inj_succ.
    replace (Z.succ (Zpos (digits2_pos p)) - 1)%Z
      with (Z.succ (Zpos (digits2_pos p) - 1)) by lia.
    rewrite Z.pow_succ_r by lia. lia.
Qed.

Lemma shr_1_m (r : shr_record) :
  (0 <= shr_m r)%Z -> shr_m (shr_1 r) = Z.div2 (shr_m r).
Proof.
  destruct r as [[|[p|p|]|p] rb sb]; cbn; intros H; try reflexivity; lia.
Qed.

(** Shifting a mantissa to the right, one binary digit at a time. *)
Lemma iter_shr_1_m (p : positive) (r : shr_record) :
  (0 <= shr_m r)%Z ->
  shr_m (SpecFloat.iter_pos shr_1 p r) = Z.shiftr (shr_m r) (Zpos p).
Proof.
  revert r; induction p as [p IH|p IH|]; intros r Hr; cbn [SpecFloat.iter_pos].
  - assert (H1 : (0 <= shr_m (shr_1 r))%Z)
      by (rewrite shr_1_m by assumption; apply Z.div2_nonneg; assumption).
    assert (H2 : (0 <= shr_m (SpecFloat.iter_pos shr_1 p (shr_1 r)))%Z)
      by (rewrite IH by assumption; apply Z.shiftr_nonneg; assumption).
    rewrite IH, IH, shr_1_m by assumption.
    rewrite Z.div2_spec, !Z.shiftr_shiftr by lia. f_equal. lia.
  - assert (H2 : (0 <= shr_m (SpecFloat.iter_pos shr_1 p r))%Z)
      by (rewrite IH by assumption; apply Z.shiftr_nonneg; assumption).
    rewrite IH, IH by assumption.
    rewrite Z.shiftr_shiftr by lia. f_equal. lia.
  - rewrite shr_1_m by assumption. apply Z.div2_spec.
Qed.

(** Bringing a positive mantissa to the precision of the format leaves it
    positive, as long as the exponent is not below the least one. *)
Lemma shr_fexp_pos (m : positive) (e : Z) (l : location) :
  (emin <= e)%Z ->
  (0 < shr_m (fst (shr_fexp prec emax (Zpos m) e l)))%Z
  /\ (emin <= snd (shr_fexp prec emax (Zpos m) e l))%Z.
Proof.
  intros He. unfold shr_fexp, shr.
  assert (Hm : shr_m (shr_record_of_loc (Zpos m) l) = Zpos m)
    by (destruct l as [|[]]; reflexivity).
  pose proof (digits2_pos_bound m) as Hd.
  cbn [Zdigits2].
  destruct (fexp prec emax (Zpos (digits2_pos m) + e) - e)%Z as [|n|n] eqn:Hn;
    cbn [fst snd]; try (rewrite Hm; lia).
  assert (Hle : (Zpos n <= Zpos (digits2_pos m) - 1)%Z).
  { unfold fexp, SpecFloat.emin, prec, emax in *. lia. }
  split; [|lia].
  rewrite iter_shr_1_m by (rewrite Hm; lia).
  rewrite Hm, Z.shiftr_div_pow2 by lia.
  apply Z.div_str_pos. split; [apply Z.pow_pos_nonneg; lia|].
  etransitivity; [|exact Hd]. apply Z.pow_le_mono_r; lia.
Qed.

Lemma round_nearest_even_pos (mx : Z) (l : location) :
  (0 < mx)%Z -> (0 < round_nearest_even mx l)%Z.
Proof.
  intros H. destruct l as [|[]]; cbn; try destruct (Z.even mx); lia.
Qed.

Lemma binary_round_aux_positive (m : positive) (e : Z) (l : location) :
  (emin <= e)%Z ->
  match binary_round_aux prec emax false (Zpos m) e l with
  | S754_finite false _ _ | S754_infinity false => True
  | _ => False
  end.
Proof.
  intros He. unfold binary_round_aux.
  destruct (shr_fexp_pos m e l He) as [Hm1 He1].
  destruct (shr_fexp prec emax (Zpos m) e l) as [mrs' e']. cbn [fst snd] in *.
  pose proof (round_nearest_even_pos _ (loc_of_shr_record mrs') Hm1) as Hm2.
  destruct (round_nearest_even (shr_m mrs') (loc_of_shr_record mrs')) as [|m2|m2];
    try lia.
  destruct (shr_fexp_pos m2 e' loc_Exact He1) as [Hm3 _].
  destruct (shr_fexp prec emax (Zpos m2) e' loc_Exact) as [mrs'' e''].
  cbn [fst snd] in *.
  destruct (shr_m mrs''); try lia.
  destruct (Z.leb _ _); exact I.
Qed.

(** The number of a count that is not 0 is positive: finite or infinite. *)
Lemma ofNat_positive (n : nat) :
  (0 < n)%nat ->
  match Number.ofNat n with
  | S754_finite false _ _ | S754_infinity false => True
  | _ => False
  end.
Proof.
  intros Hn. unfold Number.ofNat, binary_normalize.
  destruct (Z.of_nat n) as [|p|p] eqn:Hp; try lia.
  unfold binary_round.
  destruct (shl_align p 0 (fexp prec emax (Zpos (digits2_pos p) + 0))) as [mz ez] eqn:Hs.
  apply binary_round_aux_positive.
  unfold shl_align in Hs.
  destruct (fexp prec emax (Zpos (digits2_pos p) + 0) - 0)%Z eqn:Hf;
    injection Hs as <- <-; unfold fexp, SpecFloat.emin, prec, emax in *; lia.
Qed.

(** [0] shared among any number of questions is [0]. *)
Lemma zero_div_ofNat (n : nat) :
  (0 < n)%nat -> Number.div Number.zero (Number.ofNat n) = Number.zero.
Proof.
  intros Hn. pose proof (ofNat_positive n Hn) as H.
  destruct (Number.ofNat n) as [s|[]| |[] m e]; try destruct H; reflexivity.
Qed.

(** ** [executeCode] as its callers see it *)

Lemma executeCode_eq (env : Env) (input : ExecuteCodeInput.t) (w : World) :
  executeCode env input w
  = match flowWrapper env (invoked w) input with
    | FlowCompletes =>
        (Normal (flowOutput env input (fetched w)),
         afterFetches (afterInvokes w [input])
                      (requestFor input <$> ExecuteCodeInput.testCases input))
    | FlowThrowsBefore e => (Throw e, afterInvokes w [input])
    | FlowThrowsAfter e =>
        (Throw e,
         afterFetches (afterInvokes w [input])
                      (requestFor input <$> ExecuteCodeInput.testCases input))
    end.
Proof.
  unfold executeCode.
  destruct (flowWrapper env (invoked w) input); rewrite ?executeCodeFlow_eq; reflexivity.
Qed.

(** What a call of [executeCode] leaves behind, whether it returns or throws. *)
Lemma executeCode_world (env : Env) (input : ExecuteCodeInput.t) (w : World) :
  let w' := snd (executeCode env input w) in
  invoked w' = invoked w ++ [input] /\ ui w' = ui w /\ uuids w' = uuids w.
Proof.
  rewrite executeCode_eq.
  destruct (flowWrapper env (invoked w) input); simpl; auto.
Qed.

(** A summary that [executeCode] returns is the one of the flow. *)
Lemma executeCode_returns (env : Env) (input : ExecuteCodeInput.t) (w w' : World)
      (out : ExecuteCodeOutput.t) :
  executeCode env input w = (Normal out, w') ->
  out = flowOutput env input (fetched w).
Proof.
  rewrite executeCode_eq.
  destruct (flowWrapper env (invoked w) input); intros [= <- <-] || discriminate.
  reflexivity.
Qed.

Lemma flowOutput_passed_le (env : Env) (input : ExecuteCodeInput.t)
      (history : list Request.t) :
  (ExecuteCodeOutput.totalPassed (flowOutput env input history)
   <= ExecuteCodeOutput.totalCases (flowOutput env input history))%nat.
Proof.
  simpl. rewrite <- (flowResults_length env input history).
  apply countCorrect_le.
Qed.

(** ** The loop of [handleSubmitExam] over the questions *)

Lemma mapM_failedOnSubmit (env : Env) (testCases : list TestCase.t) (w : World) :
  mapM (failedOnSubmit env) testCases w
  = (Normal (failedResults env (uuids w) testCases),
     afterUuids w (length testCases)).
Proof.
  revert w; induction testCases as [|tc tcs IH]; intros w; cbn [mapM failedResults].
  - destruct w; reflexivity.
  - unfold bind at 1. unfold failedOnSubmit at 1. unfold bind at 1, uuidv4, ret at 1.
    unfold bind at 1. rewrite IH. unfold ret. cbn [uuids]. f_equal.
    unfold afterUuids; cbn. f_equal. lia.
Qed.


Lemma attempted_true (state : State.t) (q : Question.t) :
  attempted state q = true ->
  exists a c s,
    State.answers state !! Question.id q = Some a
    /\ StudentAnswer.sourceCode a = Some (c :: s)
    /\ submitInput state q
       = ExecuteCodeInput.mk (State.language state) (c :: s)
                             (default [] (Question.testCases q)).
Proof.
  unfold attempted, submitInput.
  destruct (State.answers state !! Question.id q) as [a|]; [|discriminate].
  destruct a as [qid txt st [[|c s]|] ao ic tr tp tc mk]; try discriminate.
  intros _. eexists _, c, s. cbn. auto.
Qed.

(** The iteration for a question that was not attempted. *)
Lemma forQuestion_unattempted (env : Env) (state : State.t) (q : Question.t)
      (finalAnswers : list StudentAnswer.t) (totalMarks : number) (w : World) :
  attempted state q = false ->
  forQuestion env state (finalAnswers, totalMarks) q w
  = (Normal (finalAnswers ++ [unattempted q], totalMarks), w).
Proof.
  unfold attempted, forQuestion.
  destruct (State.answers state !! Question.id q) as [a|]; [|reflexivity].
  destruct (StudentAnswer.sourceCode a) as [[|c s]|]; try discriminate; reflexivity.
Qed.

(** The iteration for an attempted question whose execution returns. *)
Lemma forQuestion_returns (env : Env) (state : State.t) (q : Question.t)
      (a : StudentAnswer.t) (finalAnswers : list StudentAnswer.t) (totalMarks : number)
      (w w' : World) (result : ExecuteCodeOutput.t) :
  State.answers state !! Question.id q = Some a ->
  attempted state q = true ->
  executeCode env (submitInput state q) w = (Normal result, w') ->
  forQuestion env state (finalAnswers, totalMarks) q w
  = (Normal (finalAnswers ++
               [StudentAnswer.mk (Question.id q) (Some (Question.text q))
                  (StudentAnswer.status a) (StudentAnswer.sourceCode a)
                  (StudentAnswer.actualOutput a) (StudentAnswer.isCorrect a)
                  (Some (ExecuteCodeOutput.results result))
                  (Some (ExecuteCodeOutput.totalPassed result))
                  (Some (ExecuteCodeOutput.totalCases result))
                  (Some (marksForQuestion result))],
             Number.add totalMarks (marksForQuestion result)),
     w').
Proof.
  intros Ha Hatt. destruct (attempted_true _ _ Hatt) as (a' & c & s & Ha' & Hsrc & ->).
  rewrite Ha in Ha'. injection Ha' as <-.
  intros Hexec. unfold forQuestion. rewrite Ha, Hsrc.
  unfold tryCatch, bind. rewrite Hexec. reflexivity.
Qed.

(** The iteration for an attempted question whose execution throws. *)
Lemma forQuestion_throws (env : Env) (state : State.t) (q : Question.t)
      (a : StudentAnswer.t) (finalAnswers : list StudentAnswer.t) (totalMarks : number)
      (w w' : World) (e : JsError) :
  State.answers state !! Question.id q = Some a ->
  attempted state q = true ->
  executeCode env (submitInput state q) w = (Throw e, w') ->
  forQuestion env state (finalAnswers, totalMarks) q w
  = (Normal (finalAnswers ++
               [StudentAnswer.mk (Question.id q) (Some (Question.text q))
                  (Some notAnswered) (StudentAnswer.sourceCode a)
                  (StudentAnswer.actualOutput a) (StudentAnswer.isCorrect a)
                  (Some (failedResults env (uuids w')
                           (default [] (Question.testCases q))))
                  (StudentAnswer.totalPassed a) (StudentAnswer.totalCases a)
                  (Some Number.zero)],
             totalMarks),
     afterUuids w' (length (default [] (Question.testCases q)))).
Proof.
  intros Ha Hatt. destruct (attempted_true _ _ Hatt) as (a' & c & s & Ha' & Hsrc & ->).
  rewrite Ha in Ha'. injection Ha' as <-.
  intros Hexec. unfold forQuestion. rewrite Ha, Hsrc.
  unfold tryCatch, bind at 1. rewrite Hexec.
  unfold bind. rewrite mapM_failedOnSubmit. reflexivity.
Qed.

Lemma forQuestion_step (env : Env) (state : State.t) (q : Question.t)
      (finalAnswers : list StudentAnswer.t) (totalMarks : number) (w : World) :
  notNegative totalMarks = true ->
  exists a totalMarks' w',
    forQuestion env state (finalAnswers, totalMarks) q w
    = (Normal (finalAnswers ++ [a], totalMarks'), w')
    /\ graded state q a
    /\ totalMarks' = Number.add totalMarks (marksOf a)
    /\ notNegative totalMarks' = true
    /\ ui w' = ui w
    /\ invoked w'
       = invoked w ++ (if attempted state q then [submitInput state q] else []).
Proof.
  intros Hsign. destruct (attempted state q) eqn:Hatt.
  - destruct (attempted_true _ _ Hatt) as (a & c & s & Ha & Hsrc & Hinput).
    pose proof (executeCode_world env (submitInput state q) w) as Hworld.
    destruct (executeCode env (submitInput state q) w) as [[result|e] w1] eqn:Hexec;
      cbn [snd] in Hworld; destruct Hworld as (Hinv & Hui & Huuid).
    + rewrite (forQuestion_returns _ _ _ _ _ _ _ _ _ Ha Hatt Hexec).
      eexists _, _, _. split; [reflexivity|].
      split; [|split; [|split; [|split]]]; try assumption.
      * split; [reflexivity|]. split; [reflexivity|].
        split; [cbn; eexists; split; [reflexivity | apply marksForQuestion_notNegative]
               | congruence].
      * reflexivity.
      * apply add_notNegative; [assumption | apply marksForQuestion_notNegative].
    + rewrite (forQuestion_throws _ _ _ _ _ _ _ _ _ Ha Hatt Hexec).
      eexists _, _, _. split; [reflexivity|].
      split; [|split; [|split; [|split]]]; try assumption.
      * split; [reflexivity|]. split; [reflexivity|].
        split; [cbn; eexists; split; reflexivity | congruence].
      * unfold marksOf; cbn. symmetry. apply add_zero_r. assumption.
  - rewrite forQuestion_unattempted by assumption.
    eexists _, _, _. split; [reflexivity|].
    split; [|split; [|split; [|split]]]; try assumption.
    + split; [reflexivity|]. split; [reflexivity|].
      split; [cbn; eexists; split; reflexivity | reflexivity].
    + unfold marksOf; cbn. symmetry. apply add_zero_r. assumption.
    + reflexivity.
    + rewrite app_nil_r. reflexivity.
Qed.

Lemma forOf_forQuestion (env : Env) (state : State.t) (qs : list Question.t)
      (finalAnswers : list StudentAnswer.t) (totalMarks : number) (w : World) :
  notNegative totalMarks = true ->
  exists added totalMarks' w',
    forOf qs (forQuestion env state) (finalAnswers, totalMarks) w
    = (Normal (finalAnswers ++ added, totalMarks'), w')
    /\ Forall2 (graded state) qs added
    /\ totalMarks' = foldl Number.add totalMarks (marksOf <$> added)
    /\ ui w' = ui w
    /\ invoked w'
       = invoked w ++ (submitInput state <$> List.filter (attempted state) qs).
Proof.
  revert finalAnswers totalMarks w.
  induction qs as [|q qs IH]; intros finalAnswers totalMarks w Hsign; cbn [forOf].
  - exists [], totalMarks, w. rewrite !app_nil_r. cbn.
    repeat split. constructor.
  - destruct (forQuestion_step env state q finalAnswers totalMarks w Hsign)
      as (a & tm1 & w1 & Hstep & Hgraded & Htm1 & Hsign1 & Hui1 & Hinv1).
    destruct (IH (finalAnswers ++ [a]) tm1 w1 Hsign1)
      as (added & tm2 & w2 & Hloop & Hall & Htm2 & Hui2 & Hinv2).
    exists (a :: added), tm2, w2. unfold bind. rewrite Hstep, Hloop.
    rewrite <- app_assoc. split; [reflexivity|].
    split; [constructor; assumption|].
    split; [|split].
    + rewrite Htm2, Htm1. reflexivity.
    + congruence.
    + rewrite Hinv2, Hinv1, <- app_assoc. f_equal. cbn [List.filter].
      destruct (attempted state q); reflexivity.
Qed.

Lemma documentsOf_app (a b : list UiEvent) :
  documentsOf (a ++ b) = documentsOf a ++ documentsOf b.
Proof. apply omap_app. Qed.

(** The whole of a submission that passes the guard, for an exam that has a
    list of questions. *)
Lemma handleSubmitExam_run (env : Env) (state : State.t) (uid : list N)
      (examData : Exam.t) (examId docRef : list N)
      (autoSubmitDetails : option (bool * Z)) (qs : list Question.t) (w : World) :
  Exam.questions examData = Some qs ->
  exists finalAnswers score w',
    handleSubmitExam env (Some state) (Some uid) (Some examData) examId false
                     (Some docRef) autoSubmitDetails w
    = (Normal tt, w')
    /\ ui w'
       = ui w
           ++ [SetIsSubmitting true; ShowToast submittingToast;
               SetDocument docRef
                 (payloadOf state uid examData examId autoSubmitDetails
                            finalAnswers score)]
           ++ afterWrite
                (documentStore env (submitted w) docRef
                   (payloadOf state uid examData examId autoSubmitDetails
                              finalAnswers score))
    /\ invoked w'
       = invoked w ++ (submitInput state <$> List.filter (attempted state) qs)
    /\ Forall2 (graded state) qs finalAnswers
    /\ score = runningMean (marksOf <$> finalAnswers)
    /\ submitted w'
       = submitted w
           ++ [payloadOf state uid examData examId autoSubmitDetails
                         finalAnswers score].
Proof.
  intros Hqs.
  set (w0 := afterUi w [SetIsSubmitting true; ShowToast submittingToast]).
  destruct (forOf_forQuestion env state qs [] Number.zero w0 eq_refl)
    as (added & tm & w1 & Hloop & Hall & Htm & Hui & Hinv).
  cbn [app] in Hloop.
  set (score := if (0 <? length qs)%nat
                then Number.div tm (Number.ofNat (length qs)) else Number.zero).
  set (payload := payloadOf state uid examData examId autoSubmitDetails added score).
  assert (Hdocs : documentsOf (ui w1) = submitted w).
  { rewrite Hui. unfold w0, afterUi, submitted. cbn [ui].
    rewrite documentsOf_app. cbn. apply app_nil_r. }
  assert (Hrun :
            handleSubmitExam env (Some state) (Some uid) (Some examData) examId false
                             (Some docRef) autoSubmitDetails w
            = (Normal tt,
               afterUi w1 (SetDocument docRef payload
                             :: afterWrite (documentStore env (submitted w) docRef payload)))).
  { unfold handleSubmitExam. rewrite Hqs.
    change (default [] (Some qs)) with qs.
    unfold bind at 1. unfold emit at 1. unfold bind at 1. unfold emit at 1.
    unfold bind at 1.
    replace (mkWorld _ _ _ _) with w0
      by (unfold w0, afterUi; cbn; rewrite <- app_assoc; reflexivity).
    rewrite Hloop. unfold overallScore. rewrite Hqs.
    unfold bind at 1. unfold ret at 1.
    fold score. change (Submission.mk uid examId (Exam.title examData) added score
                          (State.language state) (fst <$> autoSubmitDetails)
                          (snd <$> autoSubmitDetails)
                          match autoSubmitDetails with
                          | Some _ => js "suspicious"
                          | None => js "graded"
                          end) with payload.
    unfold tryCatch, bind at 1, setDocumentNonBlocking. rewrite Hdocs.
    destruct (documentStore env (submitted w) docRef payload) as [e|];
      unfold bind, emit, afterUi; cbn; rewrite <- ?app_assoc; reflexivity. }
  exists added, score. eexists. split; [exact Hrun|].
  cbn [ui invoked afterUi]. split; [|split; [|split; [|split]]].
  - rewrite Hui. unfold w0, afterUi; cbn [ui]. rewrite <- !app_assoc. reflexivity.
  - rewrite Hinv. reflexivity.
  - assumption.
  - unfold score, runningMean, runningSum.
    rewrite length_fmap, <- (Forall2_length _ _ _ Hall), Htm. reflexivity.
  - unfold submitted. cbn [ui afterUi].
    rewrite documentsOf_app, Hdocs.
    destruct (documentStore env _ docRef payload); reflexivity.
Qed.

(** ** Claims on [handleSubmitExam] *)

Lemma dispatched_app (w : World) (es : list UiEvent) (w' : World) :
  ui w' = ui w ++ es ->
  dispatched w'
  = dispatched w
      ++ omap (fun e => match e with Dispatch a => Some a | _ => None end) es.
Proof. unfold dispatched. intros ->. apply omap_app. Qed.




(** C6.  A question with no answer, or whose answer has no source code or an
    empty one, is recorded by the submission with marks 0, the status
    ['not-answered'] and no test results; its iteration leaves the world as
    it is, and over the whole submission [executeCode] is called for the
    attempted questions, in their order, and for no other. *)
Theorem C6_question_without_code_scores_0_and_is_not_executed
        (env : Env) (state : State.t) (uid : list N) (examData : Exam.t)
        (examId docRef : list N) (autoSubmitDetails : option (bool * Z))
        (qs : list Question.t) (w : World) (i : nat) (q : Question.t) :
  Exam.questions examData = Some qs ->
  qs !! i = Some q ->
  attempted state q = false ->
  (forall finalAnswers totalMarks w0,
      returns (forQuestion env state (finalAnswers, totalMarks) q) w0
              (finalAnswers ++ [unattempted q], totalMarks) w0)
  /\ exists payload a w',
      returns (handleSubmitExam env (Some state) (Some uid) (Some examData) examId
                                false (Some docRef) autoSubmitDetails) w tt w'
      /\ submitted w' = submitted w ++ [payload]
      /\ Submission.answers payload !! i = Some a
      /\ StudentAnswer.questionId a = Question.id q
      /\ StudentAnswer.marks a = Some Number.zero
      /\ StudentAnswer.status a = Some notAnswered
      /\ StudentAnswer.testResults a = Some []
      /\ invoked w'
         = invoked w ++ (submitInput state <$> List.filter (attempted state) qs).
Proof.
  intros Hqs Hq Hatt. split.
  - intros finalAnswers totalMarks w0. apply forQuestion_unattempted. assumption.
  - destruct (handleSubmitExam_run env state uid examData examId docRef
                autoSubmitDetails qs w Hqs)
      as (finalAnswers & score & w' & Hrun & Hui & Hinv & Hall & Hscore & Hsub).
    destruct (Forall2_lookup_l _ _ _ _ _ Hall Hq) as (a & Ha & Hgraded).
    destruct Hgraded as (_ & _ & _ & Hblank). specialize (Hblank Hatt). subst a.
    eexists _, _, _. split; [exact Hrun|].
    split; [exact Hsub|].
    split; [exact Ha|]. repeat (split; [reflexivity|]). exact Hinv.
Qed.

Lemma C6_witness_first_question_left_blank :
  (forall finalAnswers totalMarks w0,
      returns (forQuestion secondCallThrows firstLeftBlank (finalAnswers, totalMarks)
                           printQuestion) w0
              (finalAnswers ++ [unattempted printQuestion], totalMarks) w0)
  /\ exists payload a w',
      returns (handleSubmitExam secondCallThrows (Some firstLeftBlank) (Some student)
                                (Some midterm) examId1 false (Some docRef1) None)
              initialWorld tt w'
      /\ submitted w' = submitted initialWorld ++ [payload]
      /\ Submission.answers payload !! 0%nat = Some a
      /\ StudentAnswer.questionId a = Question.id printQuestion
      /\ StudentAnswer.marks a = Some Number.zero
      /\ StudentAnswer.status a = Some notAnswered
      /\ StudentAnswer.testResults a = Some []
      /\ invoked w'
         = invoked initialWorld
             ++ (submitInput firstLeftBlank
                   <$> List.filter (attempted firstLeftBlank)
                                   [printQuestion; twiceQuestion; greetQuestion]).
Proof.
  apply (C6_question_without_code_scores_0_and_is_not_executed
           secondCallThrows firstLeftBlank student midterm examId1 docRef1 None
           [printQuestion; twiceQuestion; greetQuestion] initialWorld 0 printQuestion).
  - reflexivity.
  - reflexivity.
  - vm_compute. reflexivity.
Defined.






(** The examples of the specification, which the rounding leaves as they are:
    3 test cases passed out of 4 give 75, and questions marked 100, 50 and 0
    give the score 50. *)
Lemma scores_examples :
  marksForQuestion (ExecuteCodeOutput.mk [] 3 4) = Number.ofNat 75
  /\ (fun p => (marksOf <$> Submission.answers p, Submission.score p))
       <$> submitted
             (snd (handleSubmitExam twoThenWrong (Some allAttempted) (Some student)
                     (Some midterm) examId1 false (Some docRef1) None initialWorld))
     = [([Number.ofNat 100; Number.ofNat 50; Number.zero], Number.ofNat 50)].
Proof. split; vm_compute; reflexivity. Qed.

(** ** Claims on [handleRunCode] *)

(** C9.  When the first result that [executeCode] returns to [handleRunCode]
    carries a non-empty [error], the handler shows it and dispatches a
    [SET_RUN_RESULT] whose [actualOutput] is the text of the error and whose
    [isCorrect] is false, whatever [isCorrect] the result has; the reducer
    then records that output and that verdict and leaves the status of the
    question as it was. *)
Theorem C9_result_with_an_error_is_recorded_as_a_failed_run
        (env : Env) (state : State.t) (examData : Exam.t)
        (questions : list Question.t) (currentQuestionIndex : nat)
        (q : Question.t) (a : StudentAnswer.t) (w w1 w2 : World)
        (testCases : list TestCase.t) (result : ExecuteCodeOutput.t)
        (r : TestResult.t) (c : N) (s : list N) :
  Exam.questions examData = Some questions ->
  questions !! currentQuestionIndex = Some q ->
  State.answers state !! Question.id q = Some a ->
  returns (sampleTestCases env q) (afterUi w [SetIsExecutingCode true]) testCases w1 ->
  returns (executeCode env
             (ExecuteCodeInput.mk (State.language state)
                (orElse (StudentAnswer.sourceCode a) []) testCases))
          w1 result w2 ->
  ExecuteCodeOutput.results result !! 0%nat = Some r ->
  TestResult.error r = Some (c :: s) ->
  returns (handleRunCode env (Some state) (Some examData) currentQuestionIndex) w tt
          (afterUi w2
             [ShowToast (mkToast (Some (js "destructive")) (js "Execution Error")
                                 (Some (c :: s)) None);
              Dispatch (SET_RUN_RESULT (Question.id q) (c :: s) false);
              SetIsExecutingCode false])
  /\ exists a',
      State.answers (examReducer state (SET_RUN_RESULT (Question.id q) (c :: s) false))
        !! Question.id q = Some a'
      /\ StudentAnswer.actualOutput a' = Some (c :: s)
      /\ StudentAnswer.isCorrect a' = Some false
      /\ StudentAnswer.status a' = StudentAnswer.status a.
Proof.
  intros Hqs Hq Ha Hsample Hexec Hr Herror. split.
  - unfold handleRunCode. rewrite Hqs.
    destruct questions as [|q0 questions']; [rewrite lookup_nil in Hq; discriminate|].
    rewrite Hq, orElse_Some_nil, Ha.
    unfold returns in *.
    unfold bind at 1. unfold emit at 1.
    change (mkWorld (fetched w) (invoked w) (uuids w) (ui w ++ [SetIsExecutingCode true]))
      with (afterUi w [SetIsExecutingCode true]).
    unfold bind at 1. unfold tryCatch. unfold bind at 1. rewrite Hsample.
    unfold bind at 1. rewrite Hexec. rewrite Hr, Herror.
    unfold bind, emit, afterUi. cbn. rewrite <- !app_assoc. reflexivity.
  - cbn. rewrite lookup_insert_eq. eexists. split; [reflexivity|].
    unfold answerOrNew. rewrite Ha. auto.
Qed.

Lemma C9_witness_correct_run_with_a_warning :
  returns (handleRunCode warns
             (Some (sitting [codeAnswer printQuestion notAnswered (js "print(42)")]))
             (Some midterm) 0)
          initialWorld tt
          (mkWorld
             [requestFor (python (js "print(42)") [answerIs42]) answerIs42]
             [python (js "print(42)") [answerIs42]]
             0
             [SetIsExecutingCode true;
              ShowToast (mkToast (Some (js "destructive")) (js "Execution Error")
                                 (Some (js "warning: unused variable")) None);
              Dispatch (SET_RUN_RESULT (js "q1") (js "warning: unused variable") false);
              SetIsExecutingCode false])
  /\ (TestResult.isCorrect
        <$> ExecuteCodeOutput.results
              (flowOutput warns (python (js "print(42)") [answerIs42]) []))
     = [true].
Proof.
  split; [|vm_compute; reflexivity].
  apply (C9_result_with_an_error_is_recorded_as_a_failed_run
           warns (sitting [codeAnswer printQuestion notAnswered (js "print(42)")])
           midterm [printQuestion; twiceQuestion; greetQuestion] 0 printQuestion
           (codeAnswer printQuestion notAnswered (js "print(42)"))
           initialWorld
           (afterUi initialWorld [SetIsExecutingCode true])
           (mkWorld
              [requestFor (python (js "print(42)") [answerIs42]) answerIs42]
              [python (js "print(42)") [answerIs42]]
              0 [SetIsExecutingCode true])
           [answerIs42]
           (flowOutput warns (python (js "print(42)") [answerIs42]) [])
           (TestResult.mk None [] (js "42") (js "42") true
                          (Some (js "warning: unused variable")))
           119 (js "arning: unused variable")).
  - reflexivity.
  - reflexivity.
  - vm_compute. reflexivity.
  - reflexivity.
  - vm_compute. reflexivity.
  - vm_compute. reflexivity.
  - reflexivity.
Defined.

(** * Further properties *)

(** ** [executeCodeFlow] *)

(** X1.  The body of the flow never throws, and what it does to the world is
    to send one request for each test case, in the order of the test cases:
    the language and the source code of the input, the version [*], and the
    input of the test case as standard input. *)
Theorem X1_flow_returns_after_one_request_per_test_case
        (env : Env) (input : ExecuteCodeInput.t) (w : World) :
  exists out,
    returns (executeCodeFlow env input) w out
      (afterFetches w
         ((fun tc => Request.mk (ExecuteCodeInput.language input) (js "*")
                                [ExecuteCodeInput.sourceCode input]
                                (TestCase.input tc))
            <$> ExecuteCodeInput.testCases input)).
Proof. eexists. apply executeCodeFlow_eq. Qed.

(** X2.  The summary never counts more passes than test cases, and with no
    test case it is the empty summary and nothing is sent. *)
Theorem X2_flow_passes_at_most_every_test_case
        (env : Env) (input : ExecuteCodeInput.t) (w : World) :
  exists out w',
    returns (executeCodeFlow env input) w out w'
    /\ (ExecuteCodeOutput.totalPassed out <= ExecuteCodeOutput.totalCases out)%nat
    /\ (ExecuteCodeInput.testCases input = [] ->
        out = ExecuteCodeOutput.mk [] 0 0 /\ w' = w).
Proof.
  eexists _, _. split; [apply executeCodeFlow_eq|].
  split; [apply flowOutput_passed_le|].
  intros Hnil. unfold flowOutput. rewrite Hnil. cbn.
  split; [reflexivity | apply afterFetches_nil].
Qed.

(** X3.  A result of the flow has no [error] exactly when the remote call
    succeeded and the sandbox reported no error stream or an empty one; an
    [error] that is there is never the empty string, and the flow gives no
    [id] to a result. *)
Theorem X3_flow_result_has_no_error_iff_clean_success
        (env : Env) (input : ExecuteCodeInput.t) (w : World) (i : nat)
        (outcome : FetchOutcome) :
  answerAt env input w i = Some outcome ->
  exists out w' r,
    returns (executeCodeFlow env input) w out w'
    /\ ExecuteCodeOutput.results out !! i = Some r
    /\ TestResult.error r <> Some []
    /\ TestResult.id r = None
    /\ (TestResult.error r = None
        <-> exists run, succeedsWith (Some outcome) run /\ truthy (stderr run) = false).
Proof.
  intros Hanswer.
  destruct (ExecuteCodeInput.testCases input !! i) as [tc|] eqn:Htc;
    [|unfold answerAt in Hanswer; rewrite Htc in Hanswer; discriminate].
  eexists _, _, _. split; [apply executeCodeFlow_eq|].
  split; [eapply flowOutput_lookup; eassumption|].
  assert (Hunknown : js "An unknown error occurred." <> []) by discriminate.
  assert (Hfailed : forall e : JsError,
             Some (orElse (message e) (js "An unknown error occurred.")) <> Some []
             /\ Some (orElse (message e) (js "An unknown error occurred.")) <> None).
  { intros e. destruct (orElse_nonempty (message e) _ Hunknown) as (c & s & ->).
    split; discriminate. }
  unfold succeedsWith.
  destruct outcome as [e|[o st j]]; cbn.
  - split; [apply Hfailed|]. split; [reflexivity|]. split.
    + intros H. destruct (proj2 (Hfailed e) H).
    + intros (run & (st & [=]) & _).
  - destruct o; cbn.
    + destruct j as [e|[run|]]; cbn.
      * split; [apply Hfailed|]. split; [reflexivity|]. split.
        -- intros H. destruct (proj2 (Hfailed e) H).
        -- intros (run & (st' & [=]) & _).
      * split; [destruct run as [out [[|c s]|]]; discriminate|].
        split; [reflexivity|]. split.
        -- intros Hnone. exists run. split; [eauto|].
           destruct run as [out [[|c s]|]]; try reflexivity. discriminate.
        -- intros (run' & (st' & [= <- <-]) & Hfalsy).
           destruct run as [out [[|c s]|]]; try reflexivity. discriminate.
      * split; [discriminate|]. split; [reflexivity|]. split.
        -- discriminate.
        -- intros (run & (st' & [=]) & _).
    + split; [discriminate|]. split; [reflexivity|]. split.
      * discriminate.
      * intros (run & (st' & [=]) & _).
Qed.

Lemma X3_witness_clean_run :
  exists out w' r,
    returns (executeCodeFlow always42 (python (js "print(42)") [answerIs42]))
            initialWorld out w'
    /\ ExecuteCodeOutput.results out !! 0%nat = Some r
    /\ TestResult.error r <> Some []
    /\ TestResult.id r = None
    /\ (TestResult.error r = None
        <-> exists run,
            succeedsWith (Some (ran (Some fortyTwoLine) None)) run
            /\ truthy (stderr run) = false).
Proof.
  apply (X3_flow_result_has_no_error_iff_clean_success
           always42 (python (js "print(42)") [answerIs42]) initialWorld 0
           (ran (Some fortyTwoLine) None)).
  reflexivity.
Defined.

(** ** [trim] *)

Lemma trimStart_app_ws (ws s : list N) :
  forallb isWhiteSpace ws = true -> trimStart (ws ++ s) = trimStart s.
Proof.
  induction ws as [|c ws IH]; simpl; [reflexivity|].
  intros [Hc Hws]%andb_true_iff. rewrite Hc. auto.
Qed.

Lemma trimStart_clean (s : list N) : startsClean (trimStart s) = true.
Proof.
  induction s as [|c s IH]; [reflexivity|]. cbn [trimStart].
  destruct (isWhiteSpace c) eqn:Hc; [assumption|]. cbn. rewrite Hc. reflexivity.
Qed.

Lemma trimStart_id (s : list N) : startsClean s = true -> trimStart s = s.
Proof.
  destruct s as [|c s]; [reflexivity|]. cbn.
  destruct (isWhiteSpace c); [discriminate | reflexivity].
Qed.

Lemma trimStart_split (s : list N) :
  exists ws, s = ws ++ trimStart s /\ forallb isWhiteSpace ws = true.
Proof.
  induction s as [|c s (ws & Hs & Hws)]; [exists []; auto|]. cbn [trimStart].
  destruct (isWhiteSpace c) eqn:Hc.
  - exists (c :: ws). cbn. rewrite Hc, Hws. split; [congruence | reflexivity].
  - exists []. auto.
Qed.

Lemma startsClean_app (a b : list N) :
  a <> [] -> startsClean (a ++ b) = startsClean a.
Proof. destruct a; [congruence | reflexivity]. Qed.

Lemma forallb_isWhiteSpace_rev (l : list N) :
  forallb isWhiteSpace (rev l) = forallb isWhiteSpace l.
Proof.
  induction l as [|c l IH]; [reflexivity|]. cbn [rev forallb].
  rewrite forallb_app, IH. cbn. rewrite andb_true_r. apply andb_comm.
Qed.

(** White space around a string that neither starts nor ends with white
    space is what [trim] removes, whatever the string has inside. *)
Lemma trim_ends (before after core : list N) :
  forallb isWhiteSpace before = true ->
  forallb isWhiteSpace after = true ->
  startsClean core = true -> startsClean (rev core) = true ->
  trim (before ++ core ++ after) = core.
Proof.
  intros Hb Ha Hc Hd. unfold trim, trimEnd.
  rewrite trimStart_app_ws by assumption.
  destruct core as [|c core].
  - cbn [app]. destruct (trimStart_split after) as (ws & Hafter & Hws).
    assert (Hnil : trimStart after = []).
    { rewrite <- (app_nil_r after), trimStart_app_ws by assumption. reflexivity. }
    rewrite Hnil. reflexivity.
  - rewrite (trimStart_id ((c :: core) ++ after)) by exact Hc.
    rewrite rev_app_distr.
    rewrite trimStart_app_ws by (rewrite forallb_isWhiteSpace_rev; assumption).
    rewrite (trimStart_id (rev (c :: core))) by assumption. apply rev_involutive.
Qed.

Lemma trim_idempotent (s : list N) : trim (trim s) = trim s.
Proof.
  unfold trim, trimEnd.
  set (t := trimStart s).
  assert (Ht : startsClean t = true) by apply trimStart_clean.
  destruct (trimStart_split (rev t)) as (ws & Hrev & Hws).
  set (u := trimStart (rev t)) in *.
  assert (Hu : startsClean u = true) by apply trimStart_clean.
  destruct u as [|d u'] eqn:Eu; [reflexivity|].
  assert (Hclean : startsClean (rev (d :: u')) = true).
  { assert (Ht' : t = rev (d :: u') ++ rev ws).
    { rewrite <- (rev_involutive t), Hrev, rev_app_distr. reflexivity. }
    rewrite Ht' in Ht. rewrite startsClean_app in Ht; [assumption|].
    cbn [rev]. intros H. apply app_eq_nil in H as [_ H]. discriminate. }
  rewrite (trimStart_id _ Hclean), rev_involutive, (trimStart_id _ Hu).
  reflexivity.
Qed.

(** X4.  For a test case whose remote call succeeds, the [actualOutput] that
    the flow records is trimmed: trimming it again changes nothing.  It is
    the value the verdict is taken on: [isCorrect] is true exactly when it is
    the trimmed expected output. *)
Theorem X4_recorded_output_is_trimmed
        (env : Env) (input : ExecuteCodeInput.t) (w : World) (i : nat)
        (tc : TestCase.t) (run : Run) :
  ExecuteCodeInput.testCases input !! i = Some tc ->
  succeedsWith (answerAt env input w i) run ->
  exists out w' r,
    returns (executeCodeFlow env input) w out w'
    /\ ExecuteCodeOutput.results out !! i = Some r
    /\ trim (TestResult.actualOutput r) = TestResult.actualOutput r
    /\ (TestResult.isCorrect r = true
        <-> TestResult.actualOutput r = trim (TestCase.expectedOutput tc)).
Proof.
  intros Htc [st Hanswer].
  eexists _, _, _. split; [apply executeCodeFlow_eq|].
  split; [eapply flowOutput_lookup; eassumption|].
  cbn. split; [apply trim_idempotent | apply strictEquals_spec].
Qed.

Lemma X4_witness_line_feed_is_dropped :
  exists out w' r,
    returns (executeCodeFlow always42 (python (js "print(42)") [answerIs42]))
            initialWorld out w'
    /\ ExecuteCodeOutput.results out !! 0%nat = Some r
    /\ trim (TestResult.actualOutput r) = TestResult.actualOutput r
    /\ (TestResult.isCorrect r = true
        <-> TestResult.actualOutput r = trim (TestCase.expectedOutput answerIs42)).
Proof.
  apply (X4_recorded_output_is_trimmed
           always42 (python (js "print(42)") [answerIs42]) initialWorld 0 answerIs42
           (mkRun (Some fortyTwoLine) None)).
  - reflexivity.
  - exists (js "OK"). reflexivity.
Defined.

(** ** [examReducer] *)

(** X5.  [UPDATE_CODE] stores the code under the question, creating the
    answer if there is none, and changes nothing else: the status, the output
    and the verdict of the question, the answers of the other questions, the
    clock, the flags and the language are as before. *)
Theorem X5_UPDATE_CODE_stores_the_code_and_nothing_else
        (state : State.t) (questionId sourceCode : list N) :
  codeOf (examReducer state (UPDATE_CODE questionId sourceCode)) questionId
  = Some sourceCode
  /\ statusOf (examReducer state (UPDATE_CODE questionId sourceCode)) questionId
     = statusOf state questionId
  /\ outputOf (examReducer state (UPDATE_CODE questionId sourceCode)) questionId
     = outputOf state questionId
  /\ verdictOf (examReducer state (UPDATE_CODE questionId sourceCode)) questionId
     = verdictOf state questionId
  /\ (forall other, other <> questionId ->
        State.answers (examReducer state (UPDATE_CODE questionId sourceCode)) !! other
        = State.answers state !! other)
  /\ State.timeLeft (examReducer state (UPDATE_CODE questionId sourceCode))
     = State.timeLeft state
  /\ State.examStarted (examReducer state (UPDATE_CODE questionId sourceCode))
     = State.examStarted state
  /\ State.examFinished (examReducer state (UPDATE_CODE questionId sourceCode))
     = State.examFinished state
  /\ State.language (examReducer state (UPDATE_CODE questionId sourceCode))
     = State.language state.
Proof.
  unfold codeOf, statusOf, outputOf, verdictOf. cbn.
  rewrite !lookup_insert_eq. cbn. unfold answerOrNew.
  repeat split;
    try (destruct (State.answers state !! questionId); reflexivity).
  intros other Hother. rewrite lookup_insert_ne by congruence. reflexivity.
Qed.

(** X6.  [SET_RUN_RESULT] records the output and the verdict of the run under
    the question, creating the answer if there is none; the code of the
    question and the answers of the other questions are as before, and so are
    the clock, the flags and the language. *)
Theorem X6_SET_RUN_RESULT_records_the_run_and_keeps_the_code
        (state : State.t) (questionId actualOutput : list N) (isCorrect : bool) :
  outputOf (examReducer state (SET_RUN_RESULT questionId actualOutput isCorrect))
           questionId
  = Some actualOutput
  /\ verdictOf (examReducer state (SET_RUN_RESULT questionId actualOutput isCorrect))
               questionId
     = Some isCorrect
  /\ codeOf (examReducer state (SET_RUN_RESULT questionId actualOutput isCorrect))
            questionId
     = codeOf state questionId
  /\ (forall other, other <> questionId ->
        State.answers
          (examReducer state (SET_RUN_RESULT questionId actualOutput isCorrect))
          !! other
        = State.answers state !! other)
  /\ State.timeLeft (examReducer state (SET_RUN_RESULT questionId actualOutput isCorrect))
     = State.timeLeft state
  /\ State.examStarted
       (examReducer state (SET_RUN_RESULT questionId actualOutput isCorrect))
     = State.examStarted state
  /\ State.examFinished
       (examReducer state (SET_RUN_RESULT questionId actualOutput isCorrect))
     = State.examFinished state
  /\ State.language (examReducer state (SET_RUN_RESULT questionId actualOutput isCorrect))
     = State.language state.
Proof.
  unfold codeOf, outputOf, verdictOf. cbn.
  rewrite !lookup_insert_eq. cbn. unfold answerOrNew.
  repeat split;
    try (destruct (State.answers state !! questionId); reflexivity).
  intros other Hother. rewrite lookup_insert_ne by congruence. reflexivity.
Qed.

Lemma examReducer_monotone (state : State.t) (action : Action) :
  isInitialize action = false ->
  (State.examStarted state = true -> State.examStarted (examReducer state action) = true)
  /\ (State.examFinished state = true ->
      State.examFinished (examReducer state action) = true)
  /\ (forall questionId,
         is_Some (State.answers state !! questionId) ->
         is_Some (State.answers (examReducer state action) !! questionId))
  /\ ((0 <= State.timeLeft state)%Z ->
      (0 <= State.timeLeft (examReducer state action) <= State.timeLeft state)%Z).
Proof.
  intros Hinit.
  destruct action as [p| |q src|l|q out b| |]; try discriminate; cbn;
    try (repeat split; auto; lia).
  - repeat split; auto; try lia. intros questionId Hsome.
    destruct (decide (q = questionId)) as [->|Hne];
      [rewrite lookup_insert_eq; eauto | rewrite lookup_insert_ne by assumption; assumption].
  - repeat split; auto; try lia. intros questionId Hsome.
    destruct (decide (q = questionId)) as [->|Hne];
      [rewrite lookup_insert_eq; eauto | rewrite lookup_insert_ne by assumption; assumption].
  - destruct (Z.leb_spec (State.timeLeft state) 1); cbn; repeat split; auto; lia.
Qed.

Lemma examReducer_steps_monotone
        (state : State.t) (actions : list Action) :
  noInitialize actions = true ->
  (State.examStarted state = true ->
   State.examStarted (foldl examReducer state actions) = true)
  /\ (State.examFinished state = true ->
      State.examFinished (foldl examReducer state actions) = true)
  /\ (forall questionId,
         is_Some (State.answers state !! questionId) ->
         is_Some (State.answers (foldl examReducer state actions) !! questionId))
  /\ ((0 <= State.timeLeft state)%Z ->
      (0 <= State.timeLeft (foldl examReducer state actions) <= State.timeLeft state)%Z).
Proof.
  revert state; induction actions as [|a actions IH]; intros state Hall; cbn.
  - repeat split; auto; lia.
  - cbn in Hall. apply andb_true_iff in Hall as [Ha Hall].
    apply negb_true_iff in Ha.
    destruct (examReducer_monotone state a Ha) as (Hs & Hf & Hk & Ht).
    destruct (IH (examReducer state a) Hall) as (Hs' & Hf' & Hk' & Ht').
    split; [auto|]. split; [auto|]. split; [auto|].
    intros H0. specialize (Ht H0). destruct Ht as [Hlo Hhi].
    specialize (Ht' Hlo). lia.
Qed.

(** X7.  Short of [INITIALIZE], nothing is ever undone: through any actions
    an exam that has started stays started, an exam that is finished stays
    finished, a question that has an answer keeps one, and a clock that is
    not negative never goes up nor below 0. *)
Theorem X7_flags_and_answers_are_never_undone
        (state : State.t) (actions : list Action) :
  noInitialize actions = true ->
  (State.examStarted state = true ->
   State.examStarted (foldl examReducer state actions) = true)
  /\ (State.examFinished state = true ->
      State.examFinished (foldl examReducer state actions) = true)
  /\ (forall questionId,
         is_Some (State.answers state !! questionId) ->
         is_Some (State.answers (foldl examReducer state actions) !! questionId))
  /\ ((0 <= State.timeLeft state)%Z ->
      (0 <= State.timeLeft (foldl examReducer state actions) <= State.timeLeft state)%Z).
Proof. apply examReducer_steps_monotone. Qed.

Lemma X7_witness_a_busy_sitting :
  (State.examStarted allAttempted = true ->
   State.examStarted
     (foldl examReducer allAttempted
            [TICK_TIMER; UPDATE_LANGUAGE (js "cpp"); FINISH_EXAM; START_EXAM]) = true)
  /\ (State.examFinished allAttempted = true ->
      State.examFinished
        (foldl examReducer allAttempted
               [TICK_TIMER; UPDATE_LANGUAGE (js "cpp"); FINISH_EXAM; START_EXAM]) = true)
  /\ (forall questionId,
         is_Some (State.answers allAttempted !! questionId) ->
         is_Some (State.answers
                    (foldl examReducer allAttempted
                           [TICK_TIMER; UPDATE_LANGUAGE (js "cpp"); FINISH_EXAM; START_EXAM])
                    !! questionId))
  /\ ((0 <= State.timeLeft allAttempted)%Z ->
      (0 <= State.timeLeft
              (foldl examReducer allAttempted
                     [TICK_TIMER; UPDATE_LANGUAGE (js "cpp"); FINISH_EXAM; START_EXAM])
       <= State.timeLeft allAttempted)%Z).
Proof.
  apply (X7_flags_and_answers_are_never_undone
           allAttempted
           [TICK_TIMER; UPDATE_LANGUAGE (js "cpp"); FINISH_EXAM; START_EXAM]).
  reflexivity.
Defined.

(** X8.  [n] ticks of a clock that is not negative take [n] seconds off it,
    down to 0 and no further; the exam is finished afterwards if it was
    before or if the ticks have used the time up, and nothing else changes. *)
Theorem X8_ticks_count_down_to_zero (state : State.t) (n : nat) :
  (0 <= State.timeLeft state)%Z ->
  State.timeLeft (foldl examReducer state (replicate n TICK_TIMER))
  = Z.max 0 (State.timeLeft state - Z.of_nat n)
  /\ State.examFinished (foldl examReducer state (replicate n TICK_TIMER))
     = (State.examFinished state
        || ((0 <? n)%nat && (State.timeLeft state <=? Z.of_nat n)%Z))
  /\ State.examStarted (foldl examReducer state (replicate n TICK_TIMER))
     = State.examStarted state
  /\ State.answers (foldl examReducer state (replicate n TICK_TIMER))
     = State.answers state
  /\ State.language (foldl examReducer state (replicate n TICK_TIMER))
     = State.language state.
Proof.
  revert state; induction n as [|n IH]; intros state Ht.
  - cbn. repeat split; [lia | rewrite orb_false_r; reflexivity].
  - cbn [replicate foldl].
    assert (Ht1 : (0 <= State.timeLeft (examReducer state TICK_TIMER))%Z).
    { cbn. destruct (Z.leb_spec (State.timeLeft state) 1); cbn; lia. }
    destruct (IH _ Ht1) as (Htime & Hfin & Hst & Hans & Hlang).
    rewrite Htime, Hfin, Hst, Hans, Hlang. clear IH Htime Hfin Hst Hans Hlang Ht1.
    cbn. destruct (Z.leb_spec (State.timeLeft state) 1) as [Hle|Hgt]; cbn.
    + repeat split; [lia|].
      destruct (Z.leb_spec (State.timeLeft state) (Z.of_nat (S n))); [|lia].
      rewrite orb_true_r. reflexivity.
    + repeat split; [lia|]. f_equal.
      destruct n as [|n].
      * cbn [Nat.ltb Nat.leb andb].
        destruct (Z.leb_spec (State.timeLeft state) (Z.of_nat 1)); [lia | reflexivity].
      * cbn [Nat.ltb Nat.leb andb].
        destruct (Z.leb_spec (State.timeLeft state - 1) (Z.of_nat (S n)));
          destruct (Z.leb_spec (State.timeLeft state) (Z.of_nat (S (S n))));
          try reflexivity; lia.
Qed.

Lemma X8_witness_half_an_hour :
  State.timeLeft (foldl examReducer allAttempted (replicate 2000 TICK_TIMER))
  = Z.max 0 (State.timeLeft allAttempted - Z.of_nat 2000)
  /\ State.examFinished (foldl examReducer allAttempted (replicate 2000 TICK_TIMER))
     = (State.examFinished allAttempted
        || ((0 <? 2000)%nat && (State.timeLeft allAttempted <=? Z.of_nat 2000)%Z))
  /\ State.examStarted (foldl examReducer allAttempted (replicate 2000 TICK_TIMER))
     = State.examStarted allAttempted
  /\ State.answers (foldl examReducer allAttempted (replicate 2000 TICK_TIMER))
     = State.answers allAttempted
  /\ State.language (foldl examReducer allAttempted (replicate 2000 TICK_TIMER))
     = State.language allAttempted.
Proof.
  apply (X8_ticks_count_down_to_zero allAttempted 2000). cbn. lia.
Defined.

Lemma time_on_the_clock_or_finished (state : State.t) (action : Action) :
  isInitialize action = false ->
  (0 < State.timeLeft state)%Z
  \/ (State.timeLeft state = 0%Z /\ State.examFinished state = true) ->
  (0 < State.timeLeft (examReducer state action))%Z
  \/ (State.timeLeft (examReducer state action) = 0%Z
      /\ State.examFinished (examReducer state action) = true).
Proof.
  intros Hinit Hinv.
  destruct action as [p| |q src|l|q out b| |]; try discriminate; cbn; auto.
  destruct (Z.leb_spec (State.timeLeft state) 1); cbn; [auto | left; lia].
Qed.

(** X9.  In an exam that starts with time on the clock, the countdown never
    sets off the submission that the page hangs on [timeLeft === 0]: through
    any actions short of [INITIALIZE], whenever the clock is at 0 the exam is
    already marked finished, so that effect does not fire and the ticking has
    stopped. *)
Theorem X9_countdown_never_sets_off_the_time_up_submission
        (state : State.t) (actions : list Action) :
  noInitialize actions = true ->
  (0 < State.timeLeft state)%Z ->
  submitsOnTimeUp (Some (foldl examReducer state actions)) = false
  /\ (State.timeLeft (foldl examReducer state actions) = 0%Z ->
      State.examFinished (foldl examReducer state actions) = true
      /\ timerRuns (Some (foldl examReducer state actions)) = false).
Proof.
  intros Hall Ht.
  assert (Hinv : (0 < State.timeLeft (foldl examReducer state actions))%Z
                 \/ (State.timeLeft (foldl examReducer state actions) = 0%Z
                     /\ State.examFinished (foldl examReducer state actions) = true)).
  { assert (Hstart : (0 < State.timeLeft state)%Z
                     \/ (State.timeLeft state = 0%Z /\ State.examFinished state = true))
      by auto.
    clear Ht. revert state Hall Hstart.
    induction actions as [|a actions IH]; intros state Hall Hstart; cbn; [assumption|].
    cbn in Hall. apply andb_true_iff in Hall as [Ha Hall].
    apply negb_true_iff in Ha.
    apply IH; [assumption|]. apply time_on_the_clock_or_finished; assumption. }
  unfold submitsOnTimeUp, timerRuns.
  destruct Hinv as [Hpos|[Hzero Hfin]].
  - split.
    + destruct (Z.eqb_spec (State.timeLeft (foldl examReducer state actions)) 0);
        [lia | reflexivity].
    + lia.
  - rewrite Hfin. split.
    + rewrite andb_false_r. reflexivity.
    + intros _. split; [reflexivity | apply andb_false_r].
Qed.

Lemma X9_witness_the_clock_runs_out :
  submitsOnTimeUp
    (Some (foldl examReducer allAttempted (replicate 1800 TICK_TIMER))) = false
  /\ (State.timeLeft (foldl examReducer allAttempted (replicate 1800 TICK_TIMER)) = 0%Z ->
      State.examFinished (foldl examReducer allAttempted (replicate 1800 TICK_TIMER))
      = true
      /\ timerRuns (Some (foldl examReducer allAttempted (replicate 1800 TICK_TIMER)))
         = false).
Proof.
  apply (X9_countdown_never_sets_off_the_time_up_submission
           allAttempted (replicate 1800 TICK_TIMER)).
  - vm_compute. reflexivity.
  - cbn. lia.
Defined.

(** ** [handleRunCode] *)

Lemma sampleTestCases_eq (env : Env) (q : Question.t) (w : World) :
  sampleTestCases env q w
  = (Normal (sampleOf env q (uuids w)),
     afterUuids w (if Question.testCases q is Some _ then 0 else 1)).
Proof.
  unfold sampleTestCases, sampleOf.
  destruct (Question.testCases q); destruct w; reflexivity.
Qed.

Lemma handleRunCode_guard (env : Env) (state : option State.t)
      (examData : option Exam.t) (currentQuestionIndex : nat) (w : World) :
  current state examData currentQuestionIndex = None ->
  handleRunCode env state examData currentQuestionIndex w = (Normal tt, w).
Proof.
  unfold current, handleRunCode.
  destruct state as [state|]; [|reflexivity].
  destruct examData as [examData|]; [|reflexivity]. cbn -[orElse].
  destruct (Exam.questions examData) as [[|q0 questions]|]; try reflexivity.
  cbn -[orElse].
  destruct ((q0 :: questions) !! currentQuestionIndex) as [q|]; [|reflexivity].
  cbn -[orElse]. rewrite orElse_Some_nil.
  destruct (State.answers state !! Question.id q); [discriminate | reflexivity].
Qed.

(** A run that gets past the guard, step by step. *)
Lemma handleRunCode_run (env : Env) (state : option State.t)
      (examData : option Exam.t) (currentQuestionIndex : nat) (w : World)
      (st : State.t) (q : Question.t) (a : StudentAnswer.t) :
  current state examData currentQuestionIndex = Some (st, q, a) ->
  handleRunCode env state examData currentQuestionIndex w
  = (Normal tt,
     let outcome := executeCode env (runInput env st q a (uuids w)) (beforeRun q w) in
     afterUi (snd outcome) (runEvents q (fst outcome) ++ [SetIsExecutingCode false])).
Proof.
  intros Hcurrent. unfold current in Hcurrent.
  destruct state as [state|]; [|discriminate].
  destruct examData as [examData|]; [|discriminate]. cbn in Hcurrent.
  destruct (Exam.questions examData) as [questions|] eqn:Hqs; [|discriminate].
  cbn in Hcurrent.
  destruct (questions !! currentQuestionIndex) as [q'|] eqn:Hq; [|discriminate].
  cbn in Hcurrent.
  destruct (State.answers state !! Question.id q') as [a'|] eqn:Ha; [|discriminate].
  cbn in Hcurrent. injection Hcurrent as -> -> ->.
  unfold handleRunCode. rewrite Hqs.
  destruct questions as [|q0 questions]; [rewrite lookup_nil in Hq; discriminate|].
  rewrite Hq, orElse_Some_nil, Ha.
  unfold bind at 1. unfold emit at 1.
  change (mkWorld (fetched w) (invoked w) (uuids w) (ui w ++ [SetIsExecutingCode true]))
    with (afterUi w [SetIsExecutingCode true]).
  unfold bind at 1. unfold tryCatch. unfold bind at 1.
  rewrite sampleTestCases_eq. unfold bind at 1.
  change (uuids (afterUi w [SetIsExecutingCode true])) with (uuids w).
  fold (runInput env st q a (uuids w)).
  fold (beforeRun q w).
  destruct (executeCode env (runInput env st q a (uuids w)) (beforeRun q w))
    as [[result|e] w2]; cbn [fst snd runEvents].
  - destruct (ExecuteCodeOutput.results result !! 0%nat) as [r|].
    + destruct (TestResult.error r) as [[|c s]|].
      * destruct (TestResult.isCorrect r); unfold bind, emit, ret, afterUi; cbn;
          rewrite <- ?app_assoc; reflexivity.
      * unfold bind, emit, afterUi; cbn. rewrite <- !app_assoc. reflexivity.
      * destruct (TestResult.isCorrect r); unfold bind, emit, ret, afterUi; cbn;
          rewrite <- ?app_assoc; reflexivity.
    + unfold throw, emit, afterUi; cbn. rewrite <- !app_assoc. reflexivity.
  - unfold emit, afterUi; cbn. rewrite <- !app_assoc. reflexivity.
Qed.

(** X10.  [handleRunCode] does nothing at all, not even switch the spinner
    on, when there is no state, no exam, no list of questions or an empty
    one, no question at the current index, or no answer recorded for the
    question there. *)
Theorem X10_run_without_a_question_and_an_answer_does_nothing
        (env : Env) (state : option State.t) (examData : option Exam.t)
        (currentQuestionIndex : nat) (w : World) :
  current state examData currentQuestionIndex = None ->
  returns (handleRunCode env state examData currentQuestionIndex) w tt w.
Proof. apply handleRunCode_guard. Qed.

Lemma X10_witness_index_past_the_questions :
  returns (handleRunCode always42 (Some allAttempted) (Some midterm) 3) initialWorld tt
          initialWorld.
Proof.
  apply (X10_run_without_a_question_and_an_answer_does_nothing
           always42 (Some allAttempted) (Some midterm) 3 initialWorld).
  reflexivity.
Defined.

Lemma sampleOf_length (env : Env) (q : Question.t) (n : nat) :
  (length (sampleOf env q n) <= 1)%nat.
Proof.
  unfold sampleOf. destruct (Question.testCases q) as [tcs|]; [|reflexivity].
  rewrite length_take. lia.
Qed.

Lemma runEvents_are_run_events (q : Question.t)
      (outcome : Completion ExecuteCodeOutput.t) :
  forallb (isRunEvent q) (runEvents q outcome) = true.
Proof.
  destruct outcome as [result|e]; cbn; [|reflexivity].
  destruct (ExecuteCodeOutput.results result !! 0%nat) as [r|]; [|reflexivity].
  destruct (TestResult.error r) as [[|c s]|]; cbn;
    rewrite bool_decide_eq_true_2 by reflexivity;
    try destruct (TestResult.isCorrect r); reflexivity.
Qed.

(** X11.  A run that gets past the guard never throws.  On the page it
    switches the spinner on, then shows toasts and dispatches results of the
    current question only, then switches the spinner off, however the
    execution ended.  It calls [executeCode] once, with the language of the
    state, the code of the answer (the empty string if there is none) and at
    most one test case, and so sends at most one request. *)
Theorem X11_run_is_bracketed_and_calls_the_flow_once
        (env : Env) (state : option State.t) (examData : option Exam.t)
        (currentQuestionIndex : nat) (w : World)
        (st : State.t) (q : Question.t) (a : StudentAnswer.t) :
  current state examData currentQuestionIndex = Some (st, q, a) ->
  exists input middle w',
    returns (handleRunCode env state examData currentQuestionIndex) w tt w'
    /\ ui w' = ui w ++ [SetIsExecutingCode true] ++ middle ++ [SetIsExecutingCode false]
    /\ forallb (isRunEvent q) middle = true
    /\ invoked w' = invoked w ++ [input]
    /\ ExecuteCodeInput.language input = State.language st
    /\ ExecuteCodeInput.sourceCode input = orElse (StudentAnswer.sourceCode a) []
    /\ (length (ExecuteCodeInput.testCases input) <= 1)%nat
    /\ (length (fetched w') <= length (fetched w) + 1)%nat.
Proof.
  intros Hcurrent.
  exists (runInput env st q a (uuids w)).
  exists (runEvents q (fst (executeCode env (runInput env st q a (uuids w))
                                        (beforeRun q w)))).
  eexists. split; [apply (handleRunCode_run _ _ _ _ _ _ _ _ Hcurrent)|].
  cbv zeta.
  pose proof (executeCode_world env (runInput env st q a (uuids w)) (beforeRun q w))
    as (Hinv & Hui & _).
  pose proof (sampleOf_length env q (uuids w)) as Hlen.
  split; [cbn [ui afterUi]; rewrite Hui; cbn; rewrite <- !app_assoc; reflexivity|].
  split; [apply runEvents_are_run_events|].
  split; [cbn [invoked afterUi]; rewrite Hinv; reflexivity|].
  split; [reflexivity|]. split; [reflexivity|]. split; [exact Hlen|].
  cbn [fetched afterUi]. rewrite executeCode_eq.
  destruct (flowWrapper env _ _); cbn [snd fetched afterFetches afterInvokes beforeRun
                                        afterUuids afterUi];
    rewrite ?length_app, ?length_fmap; cbn [ExecuteCodeInput.testCases runInput]; lia.
Qed.

Lemma X11_witness_first_question_of_the_midterm :
  exists input middle w',
    returns (handleRunCode always42 (Some allAttempted) (Some midterm) 1)
            initialWorld tt w'
    /\ ui w'
       = ui initialWorld ++ [SetIsExecutingCode true] ++ middle
           ++ [SetIsExecutingCode false]
    /\ forallb (isRunEvent twiceQuestion) middle = true
    /\ invoked w' = invoked initialWorld ++ [input]
    /\ ExecuteCodeInput.language input = State.language allAttempted
    /\ ExecuteCodeInput.sourceCode input
       = orElse (StudentAnswer.sourceCode
                   (codeAnswer twiceQuestion notAnswered (js "print(42)"))) []
    /\ (length (ExecuteCodeInput.testCases input) <= 1)%nat
    /\ (length (fetched w') <= length (fetched initialWorld) + 1)%nat.
Proof.
  apply (X11_run_is_bracketed_and_calls_the_flow_once
           always42 (Some allAttempted) (Some midterm) 1 initialWorld
           allAttempted twiceQuestion
           (codeAnswer twiceQuestion notAnswered (js "print(42)"))).
  vm_compute. reflexivity.
Defined.

Lemma dispatched_afterUi (w : World) (es : list UiEvent) :
  dispatched (afterUi w es)
  = dispatched w
      ++ omap (fun e => match e with Dispatch a => Some a | _ => None end) es.
Proof. apply (dispatched_app w es). reflexivity. Qed.

(** X12.  Running a question whose list of test cases is empty: the flow is
    called with no test case, sends nothing and returns no result; reading
    the first result fails inside the handler, which shows the message of
    that failure in an [Error] toast, dispatches nothing and switches the
    spinner off. *)
Theorem X12_run_of_a_question_with_an_empty_test_list_fails
        (env : Env) (state : option State.t) (examData : option Exam.t)
        (currentQuestionIndex : nat) (w : World)
        (st : State.t) (q : Question.t) (a : StudentAnswer.t) :
  current state examData currentQuestionIndex = Some (st, q, a) ->
  Question.testCases q = Some [] ->
  flowWrapper env (invoked w)
    (ExecuteCodeInput.mk (State.language st)
                         (orElse (StudentAnswer.sourceCode a) []) [])
  = FlowCompletes ->
  returns (handleRunCode env state examData currentQuestionIndex) w tt
    (mkWorld (fetched w)
       (invoked w ++ [ExecuteCodeInput.mk (State.language st)
                        (orElse (StudentAnswer.sourceCode a) []) []])
       (uuids w)
       (ui w ++ [SetIsExecutingCode true;
                 ShowToast
                   (mkToast (Some (js "destructive")) (js "Error")
                      (Some (js "Cannot read properties of undefined (reading 'error')"))
                      None);
                 SetIsExecutingCode false])).
Proof.
  intros Hcurrent Htcs Hfate. unfold returns.
  rewrite (handleRunCode_run _ _ _ _ _ _ _ _ Hcurrent). cbv zeta.
  rewrite executeCode_eq. unfold runInput, sampleOf, beforeRun. rewrite Htcs.
  cbn [take invoked afterUuids afterUi]. rewrite Hfate.
  cbn [fst snd]. unfold runEvents, flowOutput.
  cbn [ExecuteCodeInput.testCases flowResults ExecuteCodeOutput.results fmap list_fmap].
  cbn [lookup list_lookup].
  unfold afterUi, afterFetches, afterInvokes, afterUuids.
  cbn [fetched invoked uuids ui Nat.add].
  rewrite app_nil_r, <- app_assoc. reflexivity.
Qed.

Lemma X12_witness_the_bare_question :
  returns (handleRunCode always42 (Some oddSitting) (Some oddExam) 1) initialWorld tt
    (mkWorld (fetched initialWorld)
       (invoked initialWorld
          ++ [ExecuteCodeInput.mk (State.language oddSitting)
                (orElse (StudentAnswer.sourceCode
                           (codeAnswer bareQuestion notAnswered (js "pass"))) []) []])
       (uuids initialWorld)
       (ui initialWorld
          ++ [SetIsExecutingCode true;
              ShowToast
                (mkToast (Some (js "destructive")) (js "Error")
                   (Some (js "Cannot read properties of undefined (reading 'error')"))
                   None);
              SetIsExecutingCode false])).
Proof.
  apply (X12_run_of_a_question_with_an_empty_test_list_fails
           always42 (Some oddSitting) (Some oddExam) 1 initialWorld
           oddSitting bareQuestion (codeAnswer bareQuestion notAnswered (js "pass"))).
  - vm_compute. reflexivity.
  - reflexivity.
  - reflexivity.
Defined.

(** X13.  Running a question that has no list of test cases at all: the
    handler makes up one test case with a fresh identifier, an empty input
    and an empty expected output.  When the flow completes and the sandbox
    runs the program without anything on the error stream, the run is
    recorded as passed exactly when the program printed nothing but white
    space. *)
Theorem X13_run_of_a_question_without_test_cases_expects_no_output
        (env : Env) (state : option State.t) (examData : option Exam.t)
        (currentQuestionIndex : nat) (w : World)
        (st : State.t) (q : Question.t) (a : StudentAnswer.t) (run : Run) :
  current state examData currentQuestionIndex = Some (st, q, a) ->
  Question.testCases q = None ->
  flowWrapper env (invoked w) (runInput env st q a (uuids w)) = FlowCompletes ->
  succeedsWith (answerAt env (runInput env st q a (uuids w)) w 0) run ->
  truthy (stderr run) = false ->
  exists isCorrect w',
    returns (handleRunCode env state examData currentQuestionIndex) w tt w'
    /\ invoked w'
       = invoked w
           ++ [ExecuteCodeInput.mk (State.language st)
                 (orElse (StudentAnswer.sourceCode a) [])
                 [TestCase.mk (uuidSource env (uuids w)) [] []]]
    /\ uuids w' = S (uuids w)
    /\ dispatched w'
       = dispatched w
           ++ [SET_RUN_RESULT (Question.id q) (trim (orElse (output run) [])) isCorrect]
    /\ (isCorrect = true <-> trim (orElse (output run) []) = []).
Proof.
  intros Hcurrent Htcs Hfate [statusText Hanswer] Hstderr.
  exists (strictEquals (trim (orElse (output run) [])) []).
  eexists. split; [apply (handleRunCode_run _ _ _ _ _ _ _ _ Hcurrent)|].
  cbv zeta. rewrite executeCode_eq.
  change (invoked (beforeRun q w)) with (invoked w). rewrite Hfate.
  cbn [fst snd].
  assert (Hinput : runInput env st q a (uuids w)
                   = ExecuteCodeInput.mk (State.language st)
                       (orElse (StudentAnswer.sourceCode a) [])
                       [TestCase.mk (uuidSource env (uuids w)) [] []]).
  { unfold runInput, sampleOf. rewrite Htcs. reflexivity. }
  assert (Hresults :
            ExecuteCodeOutput.results
              (flowOutput env (runInput env st q a (uuids w)) (fetched (beforeRun q w)))
              !! 0%nat
            = Some (TestResult.mk None [] [] (trim (orElse (output run) []))
                      (strictEquals (trim (orElse (output run) [])) [])
                      None)).
  { change (fetched (beforeRun q w)) with (fetched w).
    assert (Htc : ExecuteCodeInput.testCases (runInput env st q a (uuids w)) !! 0%nat
                  = Some (TestCase.mk (uuidSource env (uuids w)) [] []))
      by (rewrite Hinput; reflexivity).
    rewrite (flowOutput_lookup env _ w 0 _ _ Htc Hanswer).
    cbn. destruct (stderr run) as [[|c s]|]; try discriminate; reflexivity. }
  split; [|split; [|split]].
  - cbn [snd invoked afterUi afterFetches afterInvokes].
    change (invoked (beforeRun q w)) with (invoked w). rewrite Hinput. reflexivity.
  - unfold beforeRun. rewrite Htcs. reflexivity.
  - rewrite dispatched_afterUi. unfold runEvents. rewrite Hresults.
    cbn [TestResult.error TestResult.actualOutput TestResult.isCorrect].
    unfold dispatched. cbn [ui afterFetches afterInvokes beforeRun afterUuids afterUi].
    rewrite omap_app. cbn. rewrite app_nil_r.
    destruct (strictEquals (trim (orElse (output run) [])) []); reflexivity.
  - apply strictEquals_spec.
Qed.

Lemma X13_witness_a_program_that_prints_a_line_feed :
  exists isCorrect w',
    returns (handleRunCode silent (Some oddSitting) (Some oddExam) 0) initialWorld tt w'
    /\ invoked w'
       = invoked initialWorld
           ++ [ExecuteCodeInput.mk (State.language oddSitting)
                 (orElse (StudentAnswer.sourceCode
                            (codeAnswer freeQuestion notAnswered (js "pass"))) [])
                 [TestCase.mk (uuidSource silent (uuids initialWorld)) [] []]]
    /\ uuids w' = S (uuids initialWorld)
    /\ dispatched w'
       = dispatched initialWorld
           ++ [SET_RUN_RESULT (Question.id freeQuestion)
                 (trim (orElse (output (mkRun (Some [10]) None)) [])) isCorrect]
    /\ (isCorrect = true <-> trim (orElse (output (mkRun (Some [10]) None)) []) = []).
Proof.
  apply (X13_run_of_a_question_without_test_cases_expects_no_output
           silent (Some oddSitting) (Some oddExam) 0 initialWorld
           oddSitting freeQuestion (codeAnswer freeQuestion notAnswered (js "pass"))
           (mkRun (Some [10]) None)).
  - vm_compute. reflexivity.
  - reflexivity.
  - reflexivity.
  - exists (js "OK"). reflexivity.
  - reflexivity.
Defined.

(** X14.  A run whose first result carries no error (none, or an empty one)
    dispatches the output and the verdict of that result, and shows the
    [Test Case Passed!] toast exactly when the verdict is a pass; the reducer
    then marks the question ['answered'] on a pass and leaves its status as
    it was on a fail. *)
Theorem X14_clean_run_records_the_result_of_the_flow
        (env : Env) (state : option State.t) (examData : option Exam.t)
        (currentQuestionIndex : nat) (w w2 : World)
        (st : State.t) (q : Question.t) (a : StudentAnswer.t)
        (result : ExecuteCodeOutput.t) (r : TestResult.t) :
  current state examData currentQuestionIndex = Some (st, q, a) ->
  returns (executeCode env (runInput env st q a (uuids w))) (beforeRun q w) result w2 ->
  ExecuteCodeOutput.results result !! 0%nat = Some r ->
  truthy (TestResult.error r) = false ->
  returns (handleRunCode env state examData currentQuestionIndex) w tt
    (afterUi w2
       (Dispatch (SET_RUN_RESULT (Question.id q) (TestResult.actualOutput r)
                                 (TestResult.isCorrect r))
          :: (if TestResult.isCorrect r
              then [ShowToast
                      (mkToast None (js "Test Case Passed!")
                         (Some (js "This question is now marked as answered."))
                         (Some (js "bg-green-100 text-green-800")))]
              else [])
          ++ [SetIsExecutingCode false]))
  /\ statusOf (examReducer st (SET_RUN_RESULT (Question.id q)
                                 (TestResult.actualOutput r) (TestResult.isCorrect r)))
              (Question.id q)
     = (if TestResult.isCorrect r then Some answered else StudentAnswer.status a).
Proof.
  intros Hcurrent Hexec Hr Herror. split.
  - unfold returns. rewrite (handleRunCode_run _ _ _ _ _ _ _ _ Hcurrent). cbv zeta.
    rewrite Hexec. cbn [fst snd runEvents]. rewrite Hr.
    destruct (TestResult.error r) as [[|c s]|]; try discriminate; reflexivity.
  - rewrite statusOf_examReducer by reflexivity. cbn.
    destruct (TestResult.isCorrect r);
      [rewrite bool_decide_eq_true_2 by reflexivity; reflexivity|].
    unfold current in Hcurrent.
    destruct state as [state|]; [|discriminate].
    destruct examData as [examData|]; [|discriminate]. cbn in Hcurrent.
    destruct (Exam.questions examData) as [questions|]; [|discriminate].
    cbn in Hcurrent.
    destruct (questions !! currentQuestionIndex) as [q'|]; [|discriminate].
    cbn in Hcurrent.
    destruct (State.answers state !! Question.id q') as [a'|] eqn:Ha; [|discriminate].
    cbn in Hcurrent. injection Hcurrent as -> -> ->.
    unfold statusOf. rewrite Ha. reflexivity.
Qed.

Lemma X14_witness_a_passing_run :
  returns (handleRunCode always42 (Some allAttempted) (Some midterm) 0) initialWorld tt
    (afterUi
       (mkWorld [requestFor (python (js "print(42)") [answerIs42]) answerIs42]
                [python (js "print(42)") [answerIs42]] 0 [SetIsExecutingCode true])
       (Dispatch (SET_RUN_RESULT (js "q1") (js "42") true)
          :: (if true
              then [ShowToast
                      (mkToast None (js "Test Case Passed!")
                         (Some (js "This question is now marked as answered."))
                         (Some (js "bg-green-100 text-green-800")))]
              else [])
          ++ [SetIsExecutingCode false]))
  /\ statusOf (examReducer allAttempted (SET_RUN_RESULT (js "q1") (js "42") true))
              (js "q1")
     = (if true then Some answered
        else StudentAnswer.status (codeAnswer printQuestion notAnswered (js "print(42)"))).
Proof.
  apply (X14_clean_run_records_the_result_of_the_flow
           always42 (Some allAttempted) (Some midterm) 0 initialWorld
           (mkWorld [requestFor (python (js "print(42)") [answerIs42]) answerIs42]
                    [python (js "print(42)") [answerIs42]] 0 [SetIsExecutingCode true])
           allAttempted printQuestion
           (codeAnswer printQuestion notAnswered (js "print(42)"))
           (flowOutput always42 (python (js "print(42)") [answerIs42]) [])
           (TestResult.mk None [] (js "42") (js "42") true None)).
  - vm_compute. reflexivity.
  - vm_compute. reflexivity.
  - vm_compute. reflexivity.
  - reflexivity.
Defined.

(** X15.  When the call of [executeCode] throws, the run shows the message of
    what was thrown in an [Error] toast, dispatches nothing and switches the
    spinner off: the outcome recorded for the question is left as it was. *)
Theorem X15_run_whose_execution_throws_records_nothing
        (env : Env) (state : option State.t) (examData : option Exam.t)
        (currentQuestionIndex : nat) (w w2 : World)
        (st : State.t) (q : Question.t) (a : StudentAnswer.t) (e : JsError) :
  current state examData currentQuestionIndex = Some (st, q, a) ->
  throws (executeCode env (runInput env st q a (uuids w))) (beforeRun q w) e w2 ->
  exists w',
    returns (handleRunCode env state examData currentQuestionIndex) w tt w'
    /\ ui w'
       = ui w ++ [SetIsExecutingCode true;
                  ShowToast (mkToast (Some (js "destructive")) (js "Error")
                                     (message e) None);
                  SetIsExecutingCode false]
    /\ dispatched w' = dispatched w.
Proof.
  intros Hcurrent Hexec.
  pose proof (executeCode_world env (runInput env st q a (uuids w)) (beforeRun q w))
    as (_ & Hui & _).
  rewrite Hexec in Hui. cbn [snd] in Hui.
  eexists. split; [apply (handleRunCode_run _ _ _ _ _ _ _ _ Hcurrent)|].
  cbv zeta. rewrite Hexec. cbn [fst snd runEvents].
  assert (Hfinal : ui (afterUi w2
                         ([ShowToast (mkToast (Some (js "destructive")) (js "Error")
                                              (message e) None)]
                            ++ [SetIsExecutingCode false]))
                   = ui w ++ [SetIsExecutingCode true;
                              ShowToast (mkToast (Some (js "destructive")) (js "Error")
                                                 (message e) None);
                              SetIsExecutingCode false]).
  { cbn [ui afterUi]. rewrite Hui. cbn. rewrite <- app_assoc. reflexivity. }
  split; [exact Hfinal|].
  rewrite (dispatched_app w _ _ Hfinal). cbn. apply app_nil_r.
Qed.

Lemma X15_witness_the_flow_is_down :
  exists w',
    returns (handleRunCode flowDown (Some allAttempted) (Some midterm) 0)
            initialWorld tt w'
    /\ ui w'
       = ui initialWorld
           ++ [SetIsExecutingCode true;
               ShowToast (mkToast (Some (js "destructive")) (js "Error")
                                  (message (mkError (Some (js "Failed to fetch")))) None);
               SetIsExecutingCode false]
    /\ dispatched w' = dispatched initialWorld.
Proof.
  apply (X15_run_whose_execution_throws_records_nothing
           flowDown (Some allAttempted) (Some midterm) 0 initialWorld
           (mkWorld [] [python (js "print(42)") [answerIs42]] 0 [SetIsExecutingCode true])
           allAttempted printQuestion
           (codeAnswer printQuestion notAnswered (js "print(42)"))
           (mkError (Some (js "Failed to fetch")))).
  - vm_compute. reflexivity.
  - vm_compute. reflexivity.
Defined.

(** ** [handleSubmitExam] *)

(** X16.  [handleSubmitExam] does nothing at all when there is no state, no
    signed-in user, no exam or no document reference, or when a submission is
    already under way. *)
Theorem X16_submission_is_guarded
        (env : Env) (state : option State.t) (user : option (list N))
        (examData : option Exam.t) (examId : list N) (isSubmitting : bool)
        (studentExamDocRef : option (list N))
        (autoSubmitDetails : option (bool * Z)) (w : World) :
  state = None \/ user = None \/ examData = None \/ isSubmitting = true
  \/ studentExamDocRef = None ->
  returns (handleSubmitExam env state user examData examId isSubmitting
                            studentExamDocRef autoSubmitDetails) w tt w.
Proof.
  unfold returns, handleSubmitExam.
  intros [-> | [-> | [-> | [-> | ->]]]];
    repeat match goal with
           | |- context [match ?x with _ => _ end] => destruct x
           end; reflexivity.
Qed.

Lemma X16_witness_second_click :
  returns (handleSubmitExam always42 (Some allAttempted) (Some student) (Some midterm)
                            examId1 true (Some docRef1) None) initialWorld tt
          initialWorld.
Proof.
  apply (X16_submission_is_guarded
           always42 (Some allAttempted) (Some student) (Some midterm) examId1 true
           (Some docRef1) None initialWorld).
  right; right; right; left; reflexivity.
Defined.

(** X17.  For an exam document without a [questions] field the submission
    gets past the loop, which takes the missing list for an empty one, and
    then throws on reading the length of the list: by then it has set the
    submitting flag and shown the first toast, and it writes no document,
    finishes no exam and never resets the flag. *)
Theorem X17_submission_of_an_exam_without_questions_throws
        (env : Env) (state : State.t) (uid : list N) (examData : Exam.t)
        (examId docRef : list N) (autoSubmitDetails : option (bool * Z)) (w : World) :
  Exam.questions examData = None ->
  throws (handleSubmitExam env (Some state) (Some uid) (Some examData) examId false
                           (Some docRef) autoSubmitDetails) w
         (mkError (Some (js "Cannot read properties of undefined (reading 'length')")))
         (afterUi w [SetIsSubmitting true; ShowToast submittingToast]).
Proof.
  intros Hqs. unfold throws, handleSubmitExam, overallScore. rewrite Hqs.
  unfold bind, emit, throw, afterUi. cbn. rewrite <- app_assoc. reflexivity.
Qed.

Lemma X17_witness_the_draft_exam :
  throws (handleSubmitExam always42 (Some allAttempted) (Some student) (Some draftExam)
                           examId1 false (Some docRef1) None) initialWorld
         (mkError (Some (js "Cannot read properties of undefined (reading 'length')")))
         (afterUi initialWorld [SetIsSubmitting true; ShowToast submittingToast]).
Proof.
  apply (X17_submission_of_an_exam_without_questions_throws
           always42 allAttempted student draftExam examId1 docRef1 None initialWorld).
  reflexivity.
Defined.

Lemma graded_ids (state : State.t) (qs : list Question.t)
      (answers : list StudentAnswer.t) :
  Forall2 (graded state) qs answers ->
  StudentAnswer.questionId <$> answers = Question.id <$> qs
  /\ StudentAnswer.questionText <$> answers = (fun q => Some (Question.text q)) <$> qs.
Proof.
  induction 1 as [|q a qs answers (Hid & Htext & _) _ [IHid IHtext]]; [auto|].
  cbn. rewrite Hid, Htext, IHid, IHtext. auto.
Qed.

(** X18.  A submission that passes the guard, for an exam with a list of
    questions, returns, and does these things on the page and no other, in
    this order: set the submitting flag, show a toast, write one document at
    the reference it was given; then, when the write returns, dispatch
    [FINISH_EXAM], show a toast and go to the dashboard, and when the write
    throws, log the error, show the toast of the failure and reset the
    submitting flag.  The document carries the user, the exam, its title and
    the language of the state; one answer for each question, in the order of
    the questions, under the identifier and the text of the question; and the
    status ['suspicious'] with the details of the automatic submission when
    there are any, ['graded'] without them otherwise. *)
Theorem X18_submission_writes_one_document_then_finishes_or_reports
        (env : Env) (state : State.t) (uid : list N) (examData : Exam.t)
        (examId docRef : list N) (autoSubmitDetails : option (bool * Z))
        (qs : list Question.t) (w : World) :
  Exam.questions examData = Some qs ->
  exists payload w',
    returns (handleSubmitExam env (Some state) (Some uid) (Some examData) examId false
                              (Some docRef) autoSubmitDetails) w tt w'
    /\ ui w'
       = ui w
           ++ [SetIsSubmitting true; ShowToast submittingToast;
               SetDocument docRef payload]
           ++ match documentStore env (submitted w) docRef payload with
              | None =>
                  [Dispatch FINISH_EXAM; ShowToast submittedToast;
                   RouterPush (js "/student/dashboard")]
              | Some error =>
                  [ConsoleError (js "Submission failed") error;
                   ShowToast submissionFailedToast; SetIsSubmitting false]
              end
    /\ Submission.studentId payload = uid
    /\ Submission.examId payload = examId
    /\ Submission.examTitle payload = Exam.title examData
    /\ Submission.language payload = State.language state
    /\ StudentAnswer.questionId <$> Submission.answers payload = Question.id <$> qs
    /\ StudentAnswer.questionText <$> Submission.answers payload
       = (fun q => Some (Question.text q)) <$> qs
    /\ Submission.status payload
       = (if autoSubmitDetails is Some _ then js "suspicious" else js "graded")
    /\ Submission.autoSubmitted payload = fst <$> autoSubmitDetails
    /\ Submission.exitCount payload = snd <$> autoSubmitDetails.
Proof.
  intros Hqs.
  destruct (handleSubmitExam_run env state uid examData examId docRef
              autoSubmitDetails qs w Hqs)
    as (finalAnswers & score & w' & Hrun & Hui & Hinv & Hall & Hscore & Hsub).
  destruct (graded_ids _ _ _ Hall) as [Hids Htexts].
  eexists _, _. split; [exact Hrun|]. split; [exact Hui|].
  cbn. repeat split; assumption.
Qed.

Lemma X18_witness_an_automatic_submission_that_fails :
  exists payload w',
    returns (handleSubmitExam (storeDown twoThenWrong) (Some allAttempted)
                              (Some student) (Some midterm) examId1 false
                              (Some docRef1) (Some (true, 3%Z))) initialWorld tt w'
    /\ ui w'
       = ui initialWorld
           ++ [SetIsSubmitting true; ShowToast submittingToast;
               SetDocument docRef1 payload]
           ++ match documentStore (storeDown twoThenWrong) (submitted initialWorld)
                                  docRef1 payload with
              | None =>
                  [Dispatch FINISH_EXAM; ShowToast submittedToast;
                   RouterPush (js "/student/dashboard")]
              | Some error =>
                  [ConsoleError (js "Submission failed") error;
                   ShowToast submissionFailedToast; SetIsSubmitting false]
              end
    /\ Submission.studentId payload = student
    /\ Submission.examId payload = examId1
    /\ Submission.examTitle payload = Exam.title midterm
    /\ Submission.language payload = State.language allAttempted
    /\ StudentAnswer.questionId <$> Submission.answers payload
       = Question.id <$> [printQuestion; twiceQuestion; greetQuestion]
    /\ StudentAnswer.questionText <$> Submission.answers payload
       = (fun q => Some (Question.text q))
           <$> [printQuestion; twiceQuestion; greetQuestion]
    /\ Submission.status payload = js "suspicious"
    /\ Submission.autoSubmitted payload = Some true
    /\ Submission.exitCount payload = Some 3%Z.
Proof.
  apply (X18_submission_writes_one_document_then_finishes_or_reports
           (storeDown twoThenWrong) allAttempted student midterm examId1 docRef1
           (Some (true, 3%Z)) [printQuestion; twiceQuestion; greetQuestion]
           initialWorld).
  reflexivity.
Defined.

(** The two ways a submission ends, on the page: with the write accepted, and
    with a store that refuses every write. *)
Lemma submission_endings_examples :
  drop 3 (ui (snd (handleSubmitExam twoThenWrong (Some allAttempted) (Some student)
                     (Some midterm) examId1 false (Some docRef1) None initialWorld)))
  = [Dispatch FINISH_EXAM; ShowToast submittedToast;
     RouterPush (js "/student/dashboard")]
  /\ drop 3 (ui (snd (handleSubmitExam (storeDown twoThenWrong) (Some allAttempted)
                        (Some student) (Some midterm) examId1 false (Some docRef1)
                        None initialWorld)))
     = [ConsoleError (js "Submission failed")
                     (mkError (Some (js "Missing or insufficient permissions.")));
        ShowToast (mkToast (Some (js "destructive")) (js "Submission Failed")
                           None None);
        SetIsSubmitting false]
  /\ fst (handleSubmitExam (storeDown twoThenWrong) (Some allAttempted)
             (Some student) (Some midterm) examId1 false (Some docRef1) None
             initialWorld)
     = Normal tt.
Proof. repeat split; vm_compute; reflexivity. Qed.



(** ** [initialState] *)

Lemma initialAnswers_snoc (studentExamData : option StudentExam.t)
      (qs : list Question.t) (q : Question.t) :
  initialAnswers studentExamData (qs ++ [q])
  = <[Question.id q := initialAnswer studentExamData q]>
      (initialAnswers studentExamData qs).
Proof. unfold initialAnswers. rewrite foldl_app. reflexivity. Qed.

Lemma initialAnswers_lookup (studentExamData : option StudentExam.t)
      (qs : list Question.t) (k : list N) :
  (is_Some (initialAnswers studentExamData qs !! k) <-> k ∈ Question.id <$> qs)
  /\ (forall a, initialAnswers studentExamData qs !! k = Some a ->
                exists q, q ∈ qs /\ Question.id q = k
                          /\ a = initialAnswer studentExamData q).
Proof.
  induction qs as [|q qs [IHkey IHval]] using rev_ind.
  - cbn. split.
    + split; [intros [a Ha]; rewrite lookup_empty in Ha; discriminate|].
      intros H. apply elem_of_nil in H. destruct H.
    + intros a Ha. rewrite lookup_empty in Ha. discriminate.
  - rewrite initialAnswers_snoc, fmap_app. cbn [fmap list_fmap].
    destruct (decide (Question.id q = k)) as [Heq|Hne].
    + rewrite <- Heq, lookup_insert_eq. split.
      * split; [|eauto]. intros _. apply elem_of_app. right.
        apply list_elem_of_singleton. reflexivity.
      * intros a [= <-]. exists q. split; [|auto].
        apply elem_of_app. right. apply list_elem_of_singleton. reflexivity.
    + rewrite lookup_insert_ne by assumption. split.
      * rewrite IHkey, elem_of_app, list_elem_of_singleton. split; [auto|].
        intros [H|H]; [assumption | congruence].
      * intros a Ha. destruct (IHval a Ha) as (q' & Hin & Hid & Hq').
        exists q'. split; [|auto]. apply elem_of_app. left. assumption.
Qed.

Lemma initialState_spec
        (examData : Exam.t) (studentExamData : option StudentExam.t) :
  exists st,
    initialState (Some examData) studentExamData = Some st
    /\ State.timeLeft st = (Exam.duration examData * 60)%Z
    /\ State.examStarted st = false
    /\ State.examFinished st = false
    /\ (forall k,
           is_Some (State.answers st !! k)
           <-> k ∈ Question.id <$> default [] (Exam.questions examData))
    /\ (forall k a,
           State.answers st !! k = Some a ->
           StudentAnswer.questionId a = k
           /\ (exists c s, StudentAnswer.status a = Some (c :: s))
           /\ is_Some (StudentAnswer.sourceCode a)
           /\ is_Some (StudentAnswer.testResults a)
           /\ (studentExamData = None ->
               StudentAnswer.status a = Some notAnswered
               /\ StudentAnswer.sourceCode a = Some []
               /\ StudentAnswer.actualOutput a = None
               /\ StudentAnswer.isCorrect a = None
               /\ StudentAnswer.testResults a = Some [])).
Proof.
  eexists. split; [reflexivity|]. cbn [State.timeLeft State.examStarted
                                        State.examFinished State.answers].
  split; [reflexivity|]. split; [reflexivity|]. split; [reflexivity|]. split.
  - intros k. apply initialAnswers_lookup.
  - intros k a Ha.
    destruct (proj2 (initialAnswers_lookup _ _ k) a Ha) as (q & _ & Hid & ->).
    split; [exact Hid|]. split.
    + cbn [initialAnswer StudentAnswer.status].
      destruct (orElse_nonempty
                  ((existingAnswers ← studentExamData ≫= StudentExam.answers ;
                    List.find (fun a => strictEquals (StudentAnswer.questionId a)
                                                     (Question.id q))
                              existingAnswers) ≫= StudentAnswer.status)
                  notAnswered ltac:(discriminate)) as (c & s & Hs).
      exists c, s. unfold initialAnswer. cbn [StudentAnswer.status]. rewrite Hs.
      reflexivity.
    + split; [cbn; eauto|]. split; [cbn; eauto|].
      intros ->. cbn. auto.
Qed.

(** X20.  The state the page starts from, for an exam that has loaded: the
    clock at 60 seconds for each minute of the duration, the exam neither
    started nor finished, and an answer for each question of the exam and for
    nothing else.  Each answer bears the identifier it is filed under, a
    status that is never empty, a source code and a list of test results;
    for a student with no stored sitting every answer is ['not-answered']
    with empty code, no output, no verdict and no test results. *)
Theorem X20_initial_state_has_an_answer_for_every_question
        (examData : Exam.t) (studentExamData : option StudentExam.t) :
  exists st,
    initialState (Some examData) studentExamData = Some st
    /\ State.timeLeft st = (Exam.duration examData * 60)%Z
    /\ State.examStarted st = false
    /\ State.examFinished st = false
    /\ (forall k,
           is_Some (State.answers st !! k)
           <-> k ∈ Question.id <$> default [] (Exam.questions examData))
    /\ (forall k a,
           State.answers st !! k = Some a ->
           StudentAnswer.questionId a = k
           /\ (exists c s, StudentAnswer.status a = Some (c :: s))
           /\ is_Some (StudentAnswer.sourceCode a)
           /\ is_Some (StudentAnswer.testResults a)
           /\ (studentExamData = None ->
               StudentAnswer.status a = Some notAnswered
               /\ StudentAnswer.sourceCode a = Some []
               /\ StudentAnswer.actualOutput a = None
               /\ StudentAnswer.isCorrect a = None
               /\ StudentAnswer.testResults a = Some [])).
Proof. apply initialState_spec. Qed.

Lemma forOf_all_unattempted (env : Env) (state : State.t) (qs : list Question.t) :
  (forall q, q ∈ qs -> attempted state q = false) ->
  forall finalAnswers totalMarks w,
    forOf qs (forQuestion env state) (finalAnswers, totalMarks) w
    = (Normal (finalAnswers ++ (unattempted <$> qs), totalMarks), w).
Proof.
  induction qs as [|q qs IH]; intros Hall finalAnswers totalMarks w; cbn [forOf].
  - cbn. rewrite app_nil_r. reflexivity.
  - unfold bind. rewrite forQuestion_unattempted by (apply Hall; apply list_elem_of_here).
    rewrite IH by (intros q' Hq'; apply Hall; apply list_elem_of_further; assumption).
    rewrite <- app_assoc. reflexivity.
Qed.

(** X21.  Submitting the state the page starts from, for a student with no
    stored sitting, executes nothing: no call of [executeCode], no request,
    and a document in which every question is the blank answer and the score
    is 0. *)
Theorem X21_submitting_an_untouched_exam_executes_nothing
        (env : Env) (uid : list N) (examData : Exam.t) (examId docRef : list N)
        (autoSubmitDetails : option (bool * Z)) (qs : list Question.t) (w : World) :
  Exam.questions examData = Some qs ->
  exists payload w',
    returns (handleSubmitExam env (initialState (Some examData) None) (Some uid)
                              (Some examData) examId false (Some docRef)
                              autoSubmitDetails) w tt w'
    /\ submitted w' = submitted w ++ [payload]
    /\ Submission.answers payload = unattempted <$> qs
    /\ Submission.score payload = Number.zero
    /\ fetched w' = fetched w
    /\ invoked w' = invoked w
    /\ uuids w' = uuids w.
Proof.
  intros Hqs.
  destruct (initialState_spec examData None)
    as (st & Hst & _ & _ & _ & Hkeys & Hvals).
  rewrite Hst.
  assert (Hblank : forall q, q ∈ qs -> attempted st q = false).
  { intros q Hq. unfold attempted.
    destruct (State.answers st !! Question.id q) as [a|] eqn:Ha; [|reflexivity].
    destruct (Hvals _ _ Ha) as (_ & _ & _ & _ & Hfresh).
    destruct (Hfresh eq_refl) as (_ & -> & _). reflexivity. }
  assert (Hzero : (if (0 <? length qs)%nat
                   then Number.div Number.zero (Number.ofNat (length qs))
                   else Number.zero) = Number.zero).
  { destruct (0 <? length qs)%nat eqn:Hlen; [|reflexivity].
    apply zero_div_ofNat. apply Nat.ltb_lt. exact Hlen. }
  set (payload := payloadOf st uid examData examId autoSubmitDetails
                            (unattempted <$> qs) Number.zero).
  set (w0 := afterUi w [SetIsSubmitting true; ShowToast submittingToast]).
  assert (Hdocs : documentsOf (ui w0) = submitted w).
  { unfold w0, afterUi, submitted. cbn [ui].
    rewrite documentsOf_app. cbn. apply app_nil_r. }
  exists payload.
  exists (afterUi w0 (SetDocument docRef payload
                        :: afterWrite (documentStore env (submitted w) docRef payload))).
  split.
  - unfold returns, handleSubmitExam. rewrite Hqs.
    change (default [] (Some qs)) with qs.
    unfold bind at 1. unfold emit at 1. unfold bind at 1. unfold emit at 1.
    unfold bind at 1.
    replace (mkWorld _ _ _ _) with w0
      by (unfold w0, afterUi; cbn; rewrite <- app_assoc; reflexivity).
    rewrite (forOf_all_unattempted env st qs Hblank). cbn [app].
    unfold overallScore. rewrite Hqs.
    unfold bind at 1. unfold ret at 1. rewrite Hzero.
    change (Submission.mk uid examId (Exam.title examData) (unattempted <$> qs)
              Number.zero (State.language st) (fst <$> autoSubmitDetails)
              (snd <$> autoSubmitDetails)
              match autoSubmitDetails with
              | Some _ => js "suspicious"
              | None => js "graded"
              end) with payload.
    unfold tryCatch, bind at 1, setDocumentNonBlocking. rewrite Hdocs.
    destruct (documentStore env (submitted w) docRef payload) as [e|];
      unfold bind, emit, afterUi; cbn; rewrite <- ?app_assoc; reflexivity.
  - cbn [fetched invoked uuids afterUi w0]. split.
    + unfold submitted. cbn [ui afterUi].
      rewrite documentsOf_app, Hdocs.
      destruct (documentStore env _ docRef payload); reflexivity.
    + repeat split; reflexivity.
Qed.

Lemma X21_witness_the_midterm_untouched :
  exists payload w',
    returns (handleSubmitExam always42 (initialState (Some midterm) None) (Some student)
                              (Some midterm) examId1 false (Some docRef1) None)
            initialWorld tt w'
    /\ submitted w' = submitted initialWorld ++ [payload]
    /\ Submission.answers payload
       = unattempted <$> [printQuestion; twiceQuestion; greetQuestion]
    /\ Submission.score payload = Number.zero
    /\ fetched w' = fetched initialWorld
    /\ invoked w' = invoked initialWorld
    /\ uuids w' = uuids initialWorld.
Proof.
  apply (X21_submitting_an_untouched_exam_executes_nothing
           always42 student midterm examId1 docRef1 None
           [printQuestion; twiceQuestion; greetQuestion] initialWorld).
  reflexivity.
Defined.

(** X22.  Once the page has started from [initialState], every question of
    the exam stays runnable: whatever actions short of [INITIALIZE] follow,
    the question at any index within the questions has an answer in the
    state, so [handleRunCode] gets past its guard. *)
Theorem X22_every_question_of_a_loaded_exam_can_be_run
        (examData : Exam.t) (studentExamData : option StudentExam.t)
        (qs : list Question.t) (actions : list Action) (i : nat) (q : Question.t) :
  Exam.questions examData = Some qs ->
  qs !! i = Some q ->
  noInitialize actions = true ->
  exists st a,
    initialState (Some examData) studentExamData = Some st
    /\ current (Some (foldl examReducer st actions)) (Some examData) i
       = Some (foldl examReducer st actions, q, a).
Proof.
  intros Hqs Hq Hactions.
  destruct (initialState_spec examData studentExamData)
    as (st & Hst & _ & _ & _ & Hkeys & _).
  assert (Hsome : is_Some (State.answers st !! Question.id q)).
  { apply Hkeys. rewrite Hqs. cbn. apply list_elem_of_fmap_2.
    eapply list_elem_of_lookup_2. exact Hq. }
  destruct (examReducer_steps_monotone st actions Hactions) as (_ & _ & Hkept & _).
  destruct (Hkept _ Hsome) as [a Ha].
  exists st, a. split; [exact Hst|].
  unfold current. cbn. rewrite Hqs. cbn. rewrite Hq. cbn. rewrite Ha. reflexivity.
Qed.

Lemma X22_witness_after_some_typing :
  exists st a,
    initialState (Some midterm) None = Some st
    /\ current (Some (foldl examReducer st
                         [START_EXAM; UPDATE_CODE (js "q1") (js "print(42)"); TICK_TIMER]))
               (Some midterm) 2
       = Some (foldl examReducer st
                     [START_EXAM; UPDATE_CODE (js "q1") (js "print(42)"); TICK_TIMER],
               greetQuestion, a).
Proof.
  apply (X22_every_question_of_a_loaded_exam_can_be_run
           midterm None [printQuestion; twiceQuestion; greetQuestion]
           [START_EXAM; UPDATE_CODE (js "q1") (js "print(42)"); TICK_TIMER]
           2 greetQuestion); reflexivity.
Defined.

(** ** [ExamTimer] *)

Lemma ExamTimer_checked :
  forallb (fun n => strictEquals (ExamTimerView.text (ExamTimer (Z.of_nat n)))
                                 (clock (Z.of_nat n)))
          (seq 0 (Z.to_nat 6000))
  = true.
Proof. vm_compute. reflexivity. Qed.

(** X23.  For a time left of less than 100 minutes, and not negative, the
    timer reads [mm:ss]: the whole minutes on two digits, a colon, the
    remaining seconds on two digits; it is in the destructive colour exactly
    when less than 300 seconds are left. *)
Theorem X23_timer_reads_minutes_and_seconds (timeLeft : Z) :
  (0 <= timeLeft < 6000)%Z ->
  ExamTimerView.text (ExamTimer timeLeft) = clock timeLeft
  /\ (ExamTimerView.destructive (ExamTimer timeLeft) = true <-> (timeLeft < 300)%Z).
Proof.
  intros Hrange. split.
  - apply strictEquals_spec.
    pose proof (proj1 (forallb_forall _ _) ExamTimer_checked (Z.to_nat timeLeft)) as H.
    cbv beta in H. rewrite Z2Nat.id in H by lia. apply H.
    apply in_seq. lia.
  - cbn. apply Z.ltb_lt.
Qed.

Lemma X23_witness_five_minutes_left :
  ExamTimerView.text (ExamTimer 299) = clock 299
  /\ (ExamTimerView.destructive (ExamTimer 299) = true <-> (299 < 300)%Z).
Proof. apply (X23_timer_reads_minutes_and_seconds 299). lia. Defined.

(** ** What the page shows *)

(** X24.  The editor is on the screen exactly when nothing is loading, the
    exam and the state are there, the student has no stored sitting, the exam
    has a question at the current index, the exam has started and is not
    finished, and the page is in full screen and visible. *)
Theorem X24_editor_is_shown_exactly_during_a_secure_sitting
        (isExamLoading isStudentExamLoading : bool)
        (examData : option Exam.t) (state : option State.t)
        (studentExamData : option StudentExam.t)
        (currentQuestionIndex : nat) (isFullscreen isPageVisible : bool)
        (countdown : option Z) (isSubmitting isExecutingCode : bool) :
  (exists view,
      render isExamLoading isStudentExamLoading examData state studentExamData
             currentQuestionIndex isFullscreen isPageVisible countdown isSubmitting
             isExecutingCode
      = Normal (Editor view))
  <-> (isExamLoading = false /\ isStudentExamLoading = false
       /\ studentExamData = None /\ isFullscreen = true /\ isPageVisible = true
       /\ exists exam st questions q,
           examData = Some exam /\ state = Some st
           /\ Exam.questions exam = Some questions
           /\ questions !! currentQuestionIndex = Some q
           /\ State.examStarted st = true /\ State.examFinished st = false).
Proof.
  unfold render. split.
  - intros [view Hview].
    destruct isExamLoading, isStudentExamLoading; try discriminate.
    destruct examData as [exam|]; [|discriminate].
    destruct state as [st|]; [|discriminate].
    destruct studentExamData; [discriminate|].
    cbn [orb] in Hview.
    destruct (Exam.questions exam) as [[|q0 questions]|] eqn:Hqs; try discriminate.
    destruct ((q0 :: questions) !! currentQuestionIndex) as [q|] eqn:Hq;
      [|discriminate].
    destruct (State.examStarted st) eqn:Hstarted; [|discriminate].
    destruct isFullscreen, isPageVisible; try discriminate.
    destruct (State.examFinished st) eqn:Hfinished; [discriminate|].
    repeat split. exists exam, st, (q0 :: questions), q.
    repeat split; assumption.
  - intros (-> & -> & -> & -> & -> & exam & st & questions & q
            & -> & -> & Hqs & Hq & Hstarted & Hfinished).
    cbn [orb]. rewrite Hqs.
    destruct questions as [|q0 questions]; [rewrite lookup_nil in Hq; discriminate|].
    rewrite Hq, Hstarted, Hfinished. cbn. eauto.
Qed.

(** X25.  Rendering throws exactly when nothing is loading, the exam and the
    state are there, the student has no stored sitting, the exam has
    questions, and the current index is past them; within the questions it
    never throws. *)
Theorem X25_render_throws_exactly_past_the_questions
        (isExamLoading isStudentExamLoading : bool)
        (examData : option Exam.t) (state : option State.t)
        (studentExamData : option StudentExam.t)
        (currentQuestionIndex : nat) (isFullscreen isPageVisible : bool)
        (countdown : option Z) (isSubmitting isExecutingCode : bool) :
  (exists e,
      render isExamLoading isStudentExamLoading examData state studentExamData
             currentQuestionIndex isFullscreen isPageVisible countdown isSubmitting
             isExecutingCode
      = Throw e)
  <-> (isExamLoading = false /\ isStudentExamLoading = false
       /\ studentExamData = None
       /\ exists exam st questions,
           examData = Some exam /\ state = Some st
           /\ Exam.questions exam = Some questions
           /\ questions <> []
           /\ (length questions <= currentQuestionIndex)%nat).
Proof.
  unfold render. split.
  - intros [e He].
    destruct isExamLoading, isStudentExamLoading; try discriminate.
    destruct examData as [exam|]; [|discriminate].
    destruct state as [st|]; [|discriminate].
    destruct studentExamData; [discriminate|].
    cbn [orb] in He.
    destruct (Exam.questions exam) as [[|q0 questions]|] eqn:Hqs; try discriminate.
    destruct ((q0 :: questions) !! currentQuestionIndex) as [q|] eqn:Hq.
    + destruct (State.examStarted st); [|discriminate].
      destruct isFullscreen, isPageVisible; try discriminate;
        destruct (State.examFinished st); discriminate.
    + repeat split. exists exam, st, (q0 :: questions).
      split; [reflexivity|]. split; [reflexivity|]. split; [assumption|].
      split; [discriminate|]. apply lookup_ge_None. exact Hq.
  - intros (-> & -> & -> & exam & st & questions & -> & -> & Hqs & Hne & Hlen).
    cbn [orb]. rewrite Hqs.
    destruct questions as [|q0 questions]; [congruence|].
    rewrite (proj2 (lookup_ge_None _ _) Hlen). eauto.
Qed.

(** X26.  Once the reducer has recorded a run of the question on the screen,
    the editor shows it: the badge is the verdict of the run and the output
    pane is its output, or the invitation to run the code when that output
    is empty; the code in the editor, the timer and the expected output are
    as they were. *)
Theorem X26_editor_shows_the_recorded_run
        (exam : Exam.t) (st : State.t) (questions : list Question.t)
        (currentQuestionIndex : nat) (q : Question.t) (countdown : option Z)
        (isSubmitting : bool) (actualOutput : list N) (isCorrect : bool)
        (view : EditorView.t) :
  Exam.questions exam = Some questions ->
  questions !! currentQuestionIndex = Some q ->
  render false false (Some exam) (Some st) None currentQuestionIndex true true
         countdown isSubmitting false
  = Normal (Editor view) ->
  exists view',
    render false false (Some exam)
           (Some (examReducer st (SET_RUN_RESULT (Question.id q) actualOutput isCorrect)))
           None currentQuestionIndex true true countdown isSubmitting false
    = Normal (Editor view')
    /\ EditorView.badge view' = Some isCorrect
    /\ EditorView.panes view'
       = Some (orElse (Some actualOutput) (js "Run code to see output."),
               sampleExpectedOutput q)
    /\ EditorView.code view' = EditorView.code view
    /\ EditorView.timer view' = EditorView.timer view.
Proof.
  intros Hqs Hq. unfold render. cbn [orb]. rewrite Hqs.
  destruct questions as [|q0 questions]; [rewrite lookup_nil in Hq; discriminate|].
  rewrite Hq. cbn [State.examStarted State.examFinished State.timeLeft State.answers
                     State.language examReducer].
  destruct (State.examStarted st); cbn [negb andb orb]; [|discriminate].
  destruct (State.examFinished st); [discriminate|].
  intros [= <-]. eexists. split; [reflexivity|].
  cbn [EditorView.badge EditorView.panes EditorView.code EditorView.timer].
  rewrite lookup_insert_eq. cbn [mbind option_bind StudentAnswer.isCorrect
                                   StudentAnswer.actualOutput StudentAnswer.sourceCode].
  repeat split. unfold answerOrNew.
  destruct (State.answers st !! Question.id q); reflexivity.
Qed.

Lemma X26_witness_a_failed_run_on_the_screen :
  exists view',
    render false false (Some midterm)
           (Some (examReducer allAttempted (SET_RUN_RESULT (js "q1") (js "41") false)))
           None 0 true true None false false
    = Normal (Editor view')
    /\ EditorView.badge view' = Some false
    /\ EditorView.panes view'
       = Some (orElse (Some (js "41")) (js "Run code to see output."),
               sampleExpectedOutput printQuestion)
    /\ EditorView.code view' = js "print(42)"
    /\ EditorView.timer view' = ExamTimer 1800.
Proof.
  apply (X26_editor_shows_the_recorded_run
           midterm allAttempted [printQuestion; twiceQuestion; greetQuestion] 0
           printQuestion None false (js "41") false
           (EditorView.mk (js "Midterm") 1 3 (js "python") false (ExamTimer 1800)
                          (js "Print 42.") [[34; 34]] (js "print(42)") false None
                          (Some (js "Run code to see output.", js "42")))).
  - reflexivity.
  - reflexivity.
  - vm_compute. reflexivity.
Defined.

(** ** Typing, then submitting *)

Lemma attempted_after_UPDATE_CODE (state : State.t) (q : Question.t)
      (sourceCode : list N) :
  attempted (examReducer state (UPDATE_CODE (Question.id q) sourceCode)) q
  = truthy (Some sourceCode)
  /\ submitInput (examReducer state (UPDATE_CODE (Question.id q) sourceCode)) q
     = ExecuteCodeInput.mk (State.language state) sourceCode
                           (default [] (Question.testCases q)).
Proof.
  unfold attempted, submitInput. cbn [examReducer State.answers State.language].
  rewrite lookup_insert_eq. split; reflexivity.
Qed.

(** X27.  The code that a submission executes is the code last typed: after
    an [UPDATE_CODE] that puts a non-empty source code under a question of
    the exam, the submission calls [executeCode] for that question with that
    source code, the language of the state and all the test cases of the
    question. *)
Theorem X27_submission_executes_the_code_last_typed
        (env : Env) (state : State.t) (uid : list N) (examData : Exam.t)
        (examId docRef : list N) (autoSubmitDetails : option (bool * Z))
        (qs : list Question.t) (w : World) (q : Question.t) (c : N) (s : list N) :
  Exam.questions examData = Some qs ->
  q ∈ qs ->
  exists w',
    returns (handleSubmitExam env
               (Some (examReducer state (UPDATE_CODE (Question.id q) (c :: s))))
               (Some uid) (Some examData) examId false (Some docRef)
               autoSubmitDetails) w tt w'
    /\ ExecuteCodeInput.mk (State.language state) (c :: s)
                           (default [] (Question.testCases q))
       ∈ invoked w'.
Proof.
  intros Hqs Hq.
  destruct (handleSubmitExam_run env
              (examReducer state (UPDATE_CODE (Question.id q) (c :: s)))
              uid examData examId docRef autoSubmitDetails qs w Hqs)
    as (finalAnswers & score & w' & Hrun & _ & Hinv & _ & _).
  destruct (attempted_after_UPDATE_CODE state q (c :: s)) as [Hatt Hinput].
  exists w'. split; [exact Hrun|].
  rewrite Hinv, <- Hinput. apply elem_of_app. right.
  apply list_elem_of_fmap_2. apply list_elem_of_In. apply filter_In.
  split; [apply list_elem_of_In; exact Hq | exact Hatt].
Qed.

Lemma X27_witness_typing_into_the_blank_question :
  exists w',
    returns (handleSubmitExam always42
               (Some (examReducer firstLeftBlank
                        (UPDATE_CODE (Question.id printQuestion) (js "print(42)"))))
               (Some student) (Some midterm) examId1 false (Some docRef1) None)
            initialWorld tt w'
    /\ ExecuteCodeInput.mk (State.language firstLeftBlank) (js "print(42)")
                           (default [] (Question.testCases printQuestion))
       ∈ invoked w'.
Proof.
  apply (X27_submission_executes_the_code_last_typed
           always42 firstLeftBlank student midterm examId1 docRef1 None
           [printQuestion; twiceQuestion; greetQuestion] initialWorld printQuestion
           112 (js "rint(42)")).
  - reflexivity.
  - apply list_elem_of_here.
Defined.

(** X28.  Emptying the editor forfeits the question: after an [UPDATE_CODE]
    with the empty string for a question of the exam, the submission records
    the blank answer for it, ['not-answered'] with marks 0 and no test
    results, whatever had been recorded for the question before. *)
Theorem X28_emptying_the_editor_forfeits_the_question
        (env : Env) (state : State.t) (uid : list N) (examData : Exam.t)
        (examId docRef : list N) (autoSubmitDetails : option (bool * Z))
        (qs : list Question.t) (w : World) (i : nat) (q : Question.t) :
  Exam.questions examData = Some qs ->
  qs !! i = Some q ->
  exists payload w',
    returns (handleSubmitExam env
               (Some (examReducer state (UPDATE_CODE (Question.id q) [])))
               (Some uid) (Some examData) examId false (Some docRef)
               autoSubmitDetails) w tt w'
    /\ submitted w' = submitted w ++ [payload]
    /\ Submission.answers payload !! i = Some (unattempted q).
Proof.
  intros Hqs Hq.
  destruct (handleSubmitExam_run env
              (examReducer state (UPDATE_CODE (Question.id q) []))
              uid examData examId docRef autoSubmitDetails qs w Hqs)
    as (finalAnswers & score & w' & Hrun & _ & _ & Hall & _ & Hsub).
  destruct (attempted_after_UPDATE_CODE state q []) as [Hatt _].
  destruct (Forall2_lookup_l _ _ _ _ _ Hall Hq) as (a & Ha & _ & _ & _ & Hblank).
  rewrite (Hblank Hatt) in Ha.
  eexists _, _. split; [exact Hrun|].
  split; [exact Hsub | exact Ha].
Qed.

Lemma X28_witness_emptying_the_second_question :
  exists payload w',
    returns (handleSubmitExam always42
               (Some (examReducer allAttempted
                        (UPDATE_CODE (Question.id twiceQuestion) [])))
               (Some student) (Some midterm) examId1 false (Some docRef1) None)
            initialWorld tt w'
    /\ submitted w' = submitted initialWorld ++ [payload]
    /\ Submission.answers payload !! 1%nat = Some (unattempted twiceQuestion).
Proof.
  apply (X28_emptying_the_editor_forfeits_the_question
           always42 allAttempted student midterm examId1 docRef1 None
           [printQuestion; twiceQuestion; greetQuestion] initialWorld 1 twiceQuestion);
    reflexivity.
Defined.
